(** * upload_to_hf.py: a shallow embedding and its verified properties

    The script reads its configuration from the environment, asks git for
    the current short revision, makes sure a dataset repository exists on
    the hub and uploads every regular file found below [results].

    Everything the script does to the outside world (prints, the git
    subprocess, the three hub calls) is recorded as an event that carries
    both the call and the answer the outside world gave.  The outside
    world is a record of oracles; each oracle sees the events that
    happened before the call, so its answers may depend on the history. *)

From Stdlib Require Import String Ascii List Bool Arith NArith Lia FunInd.
From stdpp Require Import base gmap strings list fin_maps.
Import ListNotations.
Local Open Scope string_scope.
Local Open Scope list_scope.

(** ** Python exceptions

    Only exceptions deriving from [Exception] are modelled.  The class
    tag is what an [except] clause looks at; [exn_str] is [str(e)]. *)

Inductive exn_class : Type :=
  | CalledProcessError
  | FileNotFoundError
  | PermissionError
  | ValueError
  | HfHubHTTPError
  | OtherException.

Record exn : Type := mkExn { exn_cls : exn_class; exn_str : string }.

Definition is_CalledProcessError (e : exn) : bool :=
  match exn_cls e with CalledProcessError => true | _ => false end.

Definition is_FileNotFoundError (e : exn) : bool :=
  match exn_cls e with FileNotFoundError => true | _ => false end.

Inductive result (A : Type) : Type :=
  | Ok (a : A)
  | Raise (e : exn).
Arguments Ok {A} a.
Arguments Raise {A} e.

(** ** Strings as Python uses them here *)

Module Str.

(** [sub in s] *)
Fixpoint contains (sub s : string) : bool :=
  String.prefix sub s ||
  match s with
  | EmptyString => false
  | String _ s' => contains sub s'
  end.

(** A Python [str] is kept as its UTF-8 encoding: one byte for an ASCII
    character, two or three bytes for the others met here. *)

(** The UTF-8 bytes of a code point below U+10000. *)
Definition utf8 (cp : N) : string :=
  if (cp <? 0x80)%N then String (ascii_of_N cp) ""
  else if (cp <? 0x800)%N then
    String (ascii_of_N (0xC0 + cp / 0x40))
      (String (ascii_of_N (0x80 + cp mod 0x40)) "")
  else
    String (ascii_of_N (0xE0 + cp / 0x1000))
      (String (ascii_of_N (0x80 + (cp / 0x40) mod 0x40))
         (String (ascii_of_N (0x80 + cp mod 0x40)) "")).

(** The code points for which [str.isspace] holds; they are the ones
    [str.strip] removes: TAB to CR, the separators U+001C to U+001F, the
    blank, NEL, the no-break space, and the Unicode spaces and line
    separators. *)
Definition whitespace : list N :=
  [0x09; 0x0A; 0x0B; 0x0C; 0x0D; 0x1C; 0x1D; 0x1E; 0x1F; 0x20; 0x85; 0xA0;
   0x1680; 0x2000; 0x2001; 0x2002; 0x2003; 0x2004; 0x2005; 0x2006; 0x2007;
   0x2008; 0x2009; 0x200A; 0x2028; 0x2029; 0x202F; 0x205F; 0x3000]%N.

(** [s] is the encoding of one whitespace character. *)
Definition isspace (s : string) : bool :=
  existsb (String.eqb s) (map utf8 whitespace).

(** [s.lstrip()]: whitespace characters of one, two or three bytes are
    taken off the front. *)
Function lstrip (s : string) {struct s} : string :=
  match s with
  | EmptyString => EmptyString
  | String c1 s1 =>
      if isspace (String c1 "") then lstrip s1
      else
        match s1 with
        | EmptyString => s
        | String c2 s2 =>
            if isspace (String c1 (String c2 "")) then lstrip s2
            else
              match s2 with
              | EmptyString => s
              | String c3 s3 =>
                  if isspace (String c1 (String c2 (String c3 "")))
                  then lstrip s3
                  else s
              end
        end
  end.

(** One more character [c] in front of [r], which is already free of
    trailing whitespace: when [c] and all of [r] make up one whitespace
    character nothing is left, else [c] stays. *)
Definition rstrip_cons (c : ascii) (r : string) : string :=
  match r with
  | EmptyString => if isspace (String c "") then "" else String c ""
  | String c2 EmptyString =>
      if isspace (String c (String c2 "")) then "" else String c r
  | String c2 (String c3 EmptyString) =>
      if isspace (String c (String c2 (String c3 ""))) then ""
      else String c r
  | _ => String c r
  end.

(** [s.rstrip()] *)
Fixpoint rstrip (s : string) : string :=
  match s with
  | EmptyString => EmptyString
  | String c s' => rstrip_cons c (rstrip s')
  end.

(** [s.strip()] *)
Definition strip (s : string) : string := lstrip (rstrip s).

Definition LF : ascii := ascii_of_nat 10.

(** Text before the first line feed. *)
Fixpoint first_line (s : string) : string :=
  match s with
  | EmptyString => EmptyString
  | String c s' => if Ascii.eqb c LF then EmptyString else String c (first_line s')
  end.

(** [s.split(sep)] for a one-character separator. *)
Fixpoint split (sep : ascii) (s : string) : list string :=
  match s with
  | EmptyString => [EmptyString]
  | String c s' =>
      if Ascii.eqb c sep then EmptyString :: split sep s'
      else match split sep s' with
           | [] => [String c EmptyString]
           | w :: ws => String c w :: ws
           end
  end.

(** [sep.join(parts)] *)
Fixpoint join (sep : string) (parts : list string) : string :=
  match parts with
  | [] => EmptyString
  | [p] => p
  | p :: ps => p +:+ sep +:+ join sep ps
  end.

End Str.

(** ** The outside world *)

(** What [os.getenv] reads, and the parsed content of the [.env] file. *)
Abbreviation environ := (gmap string string).

(** Keyword arguments of [api.upload_file]. *)
Record upload_args : Type := mkUpload {
  path_or_fileobj : string;
  path_in_repo : string;
  up_repo_id : string;
  up_repo_type : string;
  up_token : string;
  commit_message : string
}.

(** Arguments of [create_repo]. *)
Record create_args : Type := mkCreate {
  cr_repo_id : string;
  cr_repo_type : string;
  cr_private : bool;
  cr_token : string
}.

(** An event is a call together with the answer it got. *)
Inductive event : Type :=
  | Printed (line : string)
  | SubprocessRun (argv : list string) (r : result string)
  | Whoami (token : string) (r : result (gmap string string))
  | CreateRepo (a : create_args) (r : result unit)
  | UploadFile (a : upload_args) (r : result unit).

Abbreviation trace := (list event).

(** A directory entry is a regular file, a directory with its listing in
    [scandir] order, something else (socket, fifo, device), or a symbolic
    link with what it leads to: [None] when the link dangles or loops.  A
    directory the process may not list has the empty listing: the
    traversal passes over the [PermissionError] of [scandir]. *)
#[warnings="-register-all"]
Inductive node : Type :=
  | File
  | Dir (entries : list (string * node))
  | Special
  | Symlink (target : option node).

Record world : Type := mkWorld {
  (** [subprocess.run(argv, capture_output=True, text=True, check=True)]:
      the captured standard output, or the exception raised. *)
  subprocess_run : trace -> list string -> result string;
  (** [HfApi.whoami] answers with a dictionary. *)
  hub_whoami : trace -> string -> result (gmap string string);
  hub_create_repo : trace -> create_args -> result unit;
  hub_upload_file : trace -> upload_args -> result unit;
  (** [os.getcwd()], an absolute path. *)
  cwd : string;
  (** The working directory's listing. *)
  cwd_entries : list (string * node)
}.

(** ** The effect monad

    A computation reads the world and the events so far and answers with
    the events it adds and its result.  An exception cuts the rest. *)

Definition M (A : Type) : Type := world -> trace -> trace * result A.

Definition ret {A} (a : A) : M A := fun _ _ => ([], Ok a).

Definition raise {A} (e : exn) : M A := fun _ _ => ([], Raise e).

Definition bind {A B} (m : M A) (k : A -> M B) : M B :=
  fun w h =>
    match m w h with
    | (t1, Ok a) => let '(t2, r) := k a w (h ++ t1) in (t1 ++ t2, r)
    | (t1, Raise e) => (t1, Raise e)
    end.

(** [try: m  except Exception as e: handler e] *)
Definition try_except {A} (m : M A) (handler : exn -> M A) : M A :=
  fun w h =>
    match m w h with
    | (t1, Ok a) => (t1, Ok a)
    | (t1, Raise e) => let '(t2, r) := handler e w (h ++ t1) in (t1 ++ t2, r)
    end.

Declare Scope monad_scope.
Delimit Scope monad_scope with M.
Notation "'let*' x := m 'in' k" := (bind m (fun x => k))
  (at level 10, x name, m at level 100, k at level 200,
   format "'[v' 'let*'  x  :=  m  'in' '/' k ']'") : monad_scope.
Notation "m >> k" := (bind m (fun _ => k))
  (at level 100, k at level 200, right associativity) : monad_scope.
Local Open Scope monad_scope.

Definition print (line : string) : M unit := fun _ _ => ([Printed line], Ok tt).

Definition call_subprocess (argv : list string) : M string :=
  fun w h => let r := subprocess_run w h argv in ([SubprocessRun argv r], r).

Definition call_whoami (token : string) : M (gmap string string) :=
  fun w h => let r := hub_whoami w h token in ([Whoami token r], r).

Definition call_create_repo (a : create_args) : M unit :=
  fun w h => let r := hub_create_repo w h a in ([CreateRepo a r], r).

Definition call_upload_file (a : upload_args) : M unit :=
  fun w h => let r := hub_upload_file w h a in ([UploadFile a r], r).

(** ** [get_current_git_commit] *)

Definition get_current_git_commit : M (option string) :=
  try_except
    (let* stdout := call_subprocess ["git"; "rev-parse"; "--short"; "HEAD"] in
     let commit_id := Str.strip stdout in
     ret (Some commit_id))
    (fun e =>
       if is_CalledProcessError e then
         print ("Error getting git commit ID: " +:+ exn_str e) >>
         ret None
       else if is_FileNotFoundError e then
         print "Git command not found. Make sure git is installed." >>
         ret None
       else raise e).

(** ** [os.path] on POSIX *)

Module Posixpath.

Definition sep : ascii := "/"%char.

Definition isabs (p : string) : bool := String.prefix "/" p.

Fixpoint endswith_sep (p : string) : bool :=
  match p with
  | EmptyString => false
  | String c EmptyString => Ascii.eqb c sep
  | String _ p' => endswith_sep p'
  end.

(** [os.path.join(a, b)] *)
Definition join (a b : string) : string :=
  if isabs b then b
  else if (String.eqb a "" || endswith_sep a)%bool then a +:+ b
  else a +:+ "/" +:+ b.

(** The loop of [normpath] on an absolute path.  [new_comps] is kept
    with its last component first; on an absolute path it never holds
    [".."], so [".."] pops a component or is dropped at the root. *)
Fixpoint normpath_comps (new_comps : list string) (comps : list string)
  : list string :=
  match comps with
  | [] => rev new_comps
  | comp :: rest =>
      if (String.eqb comp "" || String.eqb comp ".")%bool then
        normpath_comps new_comps rest
      else if String.eqb comp ".." then
        normpath_comps (tail new_comps) rest
      else normpath_comps (comp :: new_comps) rest
  end.

(** [[x for x in abspath(p).split(sep) if x]] *)
Definition abspath_list (cwd p : string) : list string :=
  normpath_comps [] (Str.split sep (join cwd p)).

(** [len(commonprefix([l1, l2]))] *)
Fixpoint commonprefix_len (l1 l2 : list string) : nat :=
  match l1, l2 with
  | x :: l1', y :: l2' =>
      if String.eqb x y then S (commonprefix_len l1' l2') else 0
  | _, _ => 0
  end.

(** [os.path.relpath(path, start)] with the working directory [cwd]. *)
Definition relpath (cwd path start : string) : result string :=
  if String.eqb path "" then Raise (mkExn ValueError "no path specified")
  else
    let start_list := abspath_list cwd start in
    let path_list := abspath_list cwd path in
    let i := commonprefix_len start_list path_list in
    let rel_list :=
      repeat ".." (length start_list - i) ++ drop i path_list in
    match rel_list with
    | [] => Ok "."
    | _ => Ok (Str.join "/" rel_list)
    end.

End Posixpath.

Definition os_path_relpath (path start : string) : M string :=
  fun w _ => ([], Posixpath.relpath (cwd w) path start).

(** ** [pathlib] *)

Module Pathlib.

(** A relative path is the list of its parts. *)
Abbreviation path := (list string).

(** [str(p)] *)
Definition str (p : path) : string := Str.join "/" p.

Fixpoint lookup_entry (name : string) (es : list (string * node))
  : option node :=
  match es with
  | [] => None
  | (n, x) :: es' => if String.eqb n name then Some x else lookup_entry name es'
  end.

(** What [stat] sees at [n]: symbolic links are followed to their end,
    and a dangling link leads nowhere. *)
Fixpoint follow (n : node) : option node :=
  match n with
  | Symlink t =>
      match t with
      | Some m => follow m
      | None => None
      end
  | _ => Some n
  end.

(** The node a path names, seen from the node [n], with the symbolic
    links on the way and at the end followed, as [stat] and [scandir] do. *)
Fixpoint resolve (n : node) (p : path) : option node :=
  match p with
  | [] => follow n
  | name :: p' =>
      match follow n with
      | Some (Dir es) =>
          match lookup_entry name es with
          | Some x => resolve x p'
          | None => None
          end
      | _ => None
      end
  end.

(** [Path.is_dir()] of a path that names [n]: true also for a link to a
    directory. *)
Definition is_dir_node (n : node) : bool :=
  match follow n with Some (Dir _) => true | _ => false end.

(** [Path.is_file()] of a path that names [n]: true also for a link to a
    regular file. *)
Definition is_file_node (n : node) : bool :=
  match follow n with Some File => true | _ => false end.

(** The directories below and including [p], parents first, each with
    its listing: what the recursive wildcard walks through.  An entry is
    entered when it is a directory and not a symbolic link
    ([entry.is_dir() and not entry.is_symlink()]): a link to a directory is
    listed by its parent and not entered.  The order among the entries is
    the one of the listing; the properties below that speak of sets of
    paths do not depend on it. *)
Fixpoint iterate_directories (p : path) (n : node)
  : list (path * list (string * node)) :=
  match n with
  | Dir es =>
      (p, es) ::
      flat_map (fun e => iterate_directories (p ++ [fst e]) (snd e)) es
  | _ => []
  end.

(** The entries of one directory, as paths. *)
Definition select_children (d : path * list (string * node))
  : list (path * node) :=
  map (fun e => (fst d ++ [fst e], snd e)) (snd d).

(** [p.glob("**/*")] where [p] names the node [n]. *)
Definition glob_rec_all (p : path) (n : node) : list (path * node) :=
  flat_map select_children (iterate_directories p n).

End Pathlib.

Definition path_exists (p : Pathlib.path) : M bool :=
  fun w _ =>
    ([], Ok match Pathlib.resolve (Dir (cwd_entries w)) p with
            | Some _ => true
            | None => false
            end).

Definition path_is_dir (p : Pathlib.path) : M bool :=
  fun w _ =>
    ([], Ok match Pathlib.resolve (Dir (cwd_entries w)) p with
            | Some n => Pathlib.is_dir_node n
            | None => false
            end).

Definition path_glob_rec_all (p : Pathlib.path) : M (list (Pathlib.path * node)) :=
  fun w _ =>
    ([], Ok match Pathlib.resolve (Dir (cwd_entries w)) p with
            | Some n => Pathlib.glob_rec_all p n
            | None => []
            end).

(** ** [upload_to_huggingface] *)

(** [load_dotenv()]: a variable of the [.env] file is set unless the
    process environment already has it. *)
Definition load_dotenv (dotenv os_environ : environ) : environ :=
  os_environ ∪ dotenv.

(** [os.getenv(key)] *)
Definition getenv (env : environ) (key : string) : option string := env !! key.

(** [os.getenv(key, default)] *)
Definition getenv_default (env : environ) (key dflt : string) : string :=
  default dflt (env !! key).

Definition username_error : exn :=
  mkExn ValueError
    "Could not retrieve username from API token. Please set HF_USERNAME in .env file.".

(** Lines 41-52: the account name asked from the hub. *)
Definition retrieve_username (hf_token : string) : M string :=
  print "HF_USERNAME not found in .env file, retrieving from API token..." >>
  try_except
    (let* user_info := call_whoami hf_token in
     let hf_username := user_info !! "name" in
     match hf_username with
     | Some (String c u) =>
         print ("Username retrieved: " +:+ String c u) >>
         ret (String c u)
     | _ => raise username_error
     end)
    (fun e =>
       print ("Error retrieving username from API: " +:+ exn_str e) >>
       raise username_error).

(** Lines 66-78: create the repository, an existing one is fine. *)
Definition create_or_continue (repo_id hf_token : string) : M unit :=
  print ("Checking/creating repository: " +:+ repo_id) >>
  try_except
    (call_create_repo (mkCreate repo_id "dataset" false hf_token) >>
     print "Repository created successfully")
    (fun e =>
       if (Str.contains "You already created this" (exn_str e)
           || Str.contains "409" (exn_str e))%bool
       then print "Repository already exists, continuing with upload..."
       else
         print ("Error while creating repository: " +:+ exn_str e) >>
         raise e).

(** Lines 95-108: the upload loop. *)
Fixpoint upload_files (hf_token repo_id commit_prefix : string)
    (files_to_upload : list string) : M unit :=
  match files_to_upload with
  | [] => ret tt
  | file_path :: rest =>
      let* relative_path := os_path_relpath file_path "." in
      let file_commit_message := commit_prefix +:+ " - " +:+ relative_path in
      print ("Uploading " +:+ relative_path) >>
      call_upload_file
        (mkUpload file_path relative_path repo_id "dataset" hf_token
           file_commit_message) >>
      upload_files hf_token repo_id commit_prefix rest
  end.

Definition results_dir : Pathlib.path := ["results"].

(** Lines 89-92: the paths found below [results] for which [is_file()]
    holds, regular files and links to them, as strings. *)
Definition files_below (globbed : list (Pathlib.path * node)) : list string :=
  map (fun e => Pathlib.str (fst e))
      (List.filter (fun e => Pathlib.is_file_node (snd e)) globbed).

Definition commit_prefix_of (commit_id : option string) : string :=
  match commit_id with
  | Some (String c s) => "Update from github (commit id) " +:+ String c s
  | _ => "update"
  end.

(** Lines 80-112: check the directory, collect the files, upload them
    and print the summary. *)
Definition upload_results (hf_token repo_id : string)
    (commit_id : option string) : M unit :=
  let commit_prefix := commit_prefix_of commit_id in
  let* ex := path_exists results_dir in
  let* isd := path_is_dir results_dir in
  (if (negb ex || negb isd)%bool then
     raise (mkExn ValueError
              ("Results directory not found at " +:+ Pathlib.str results_dir))
   else ret tt) >>
  print ("Uploading files from " +:+ Pathlib.str results_dir
         +:+ " to " +:+ repo_id) >>
  let* globbed := path_glob_rec_all results_dir in
  let files_to_upload := files_below globbed in
  upload_files hf_token repo_id commit_prefix files_to_upload >>
  print ("Upload complete! Repository available at: https://huggingface.co/datasets/"
         +:+ repo_id) >>
  match commit_id with
  | Some (String c s) =>
      print ("Files were uploaded with commit messages including git commit ID: '"
             +:+ String c s +:+ "'")
  | _ => ret tt
  end.

Definition token_error : exn :=
  mkExn ValueError "HF_TOKEN not found in .env file".

Definition upload_to_huggingface (dotenv os_environ : environ) : M unit :=
  let env := load_dotenv dotenv os_environ in
  let* hf_token :=
    match getenv env "HF_TOKEN" with
    | Some (String c t) => ret (String c t)
    | _ => raise token_error
    end in
  let* hf_username :=
    match getenv env "HF_USERNAME" with
    | Some (String c u) => ret (String c u)
    | _ => retrieve_username hf_token
    end in
  let repo_name := getenv_default env "HF_REPO_NAME" "longbench-results" in
  let repo_id := hf_username +:+ "/" +:+ repo_name in
  let* commit_id := get_current_git_commit in
  create_or_continue repo_id hf_token >>
  upload_results hf_token repo_id commit_id.

(** The whole run: the events in order and how it ended. *)
Definition run (dotenv os_environ : environ) (w : world) : trace * result unit :=
  upload_to_huggingface dotenv os_environ w [].

(** ** What is observed of a run *)

Definition is_network_call (e : event) : bool :=
  match e with
  | Whoami _ _ | CreateRepo _ _ | UploadFile _ _ => true
  | _ => false
  end.

Definition is_whoami (e : event) : bool :=
  match e with Whoami _ _ => true | _ => false end.

Definition is_upload (e : event) : bool :=
  match e with UploadFile _ _ => true | _ => false end.

Definition failed_upload (e : event) : bool :=
  match e with UploadFile _ (Raise _) => true | _ => false end.

(** The line printed once every file went through. *)
Definition is_summary (e : event) : bool :=
  match e with
  | Printed line => String.prefix "Upload complete!" line
  | _ => false
  end.

(** The arguments of the upload calls, in order. *)
Fixpoint upload_calls (t : trace) : list upload_args :=
  match t with
  | [] => []
  | UploadFile a _ :: t' => a :: upload_calls t'
  | _ :: t' => upload_calls t'
  end.

Definition argv_git : list string := ["git"; "rev-parse"; "--short"; "HEAD"].

(** What a truthiness test keeps of an optional string. *)
Definition nonempty_value (o : option string) : option string :=
  match o with
  | Some (String c s) => Some (String c s)
  | _ => None
  end.

Definition username_prompt : string :=
  "HF_USERNAME not found in .env file, retrieving from API token...".

(** Every event a computation adds satisfies [P], whatever the world and
    the history. *)
Definition emits {A} (P : event -> Prop) (m : M A) : Prop :=
  forall w h, Forall P (fst (m w h)).

Definition no_failed_upload (e : event) : Prop := failed_upload e = false.
Definition no_summary (e : event) : Prop := is_summary e = false.
Definition no_upload (e : event) : Prop := is_upload e = false.
Definition no_whoami (e : event) : Prop := is_whoami e = false.

Definition is_create (e : event) : bool :=
  match e with CreateRepo _ _ => true | _ => false end.
Definition no_create (e : event) : Prop := is_create e = false.

(** What may happen before the repository is created. *)
Definition before_create (e : event) : Prop :=
  is_upload e = false /\ is_create e = false /\ is_summary e = false.

(** What may happen once the account name is known. *)
Definition after_username (e : event) : Prop := is_whoami e = false.

(** What may happen once the repository is there. *)
Definition after_create (e : event) : Prop :=
  is_create e = false /\ is_whoami e = false.

(** Lines 29-63 as one step: the token, the repository identifier and
    the commit identifier. *)
Definition prelude (dotenv os_environ : environ)
  : M (string * string * option string) :=
  let env := load_dotenv dotenv os_environ in
  let* hf_token :=
    match getenv env "HF_TOKEN" with
    | Some (String c t) => ret (String c t)
    | _ => raise token_error
    end in
  let* hf_username :=
    match getenv env "HF_USERNAME" with
    | Some (String c u) => ret (String c u)
    | _ => retrieve_username hf_token
    end in
  let repo_name := getenv_default env "HF_REPO_NAME" "longbench-results" in
  let repo_id := hf_username +:+ "/" +:+ repo_name in
  let* commit_id := get_current_git_commit in
  ret (hf_token, repo_id, commit_id).

(** Where the account name of a run comes from: the variable when it is
    not empty, else the answer of the identity lookup made in [tu]. *)
Definition account_from (env : environ) (tok : string) (tu : trace)
    (account : string) : Prop :=
  match nonempty_value (getenv env "HF_USERNAME") with
  | Some u => account = u /\ tu = []
  | None =>
      exists info,
        In (Whoami tok (Ok info)) tu
        /\ nonempty_value (info !! "name") = Some account
  end.

(** [sub] occurs in [s]. *)
Definition substring_of (sub s : string) : Prop :=
  exists pre post, s = pre +:+ sub +:+ post.

(** The creation error says that the repository is already there. *)
Definition already_exists (e : exn) : Prop :=
  substring_of "409" (exn_str e)
  \/ substring_of "You already created this" (exn_str e).

Definition checking_line (rid : string) : string :=
  "Checking/creating repository: " +:+ rid.

(** After the creation call [CreateRepo a r] made with the events [pre]
    behind it, the run prints [line] and goes on with lines 80-112; [post]
    is what follows the call and the run ends as that part ends. *)
Definition continues_with_upload (w : world) (outcome : result unit)
    (pre : trace) (a : create_args) (r : result unit) (line : string)
    (post : trace) : Prop :=
  exists t h0 tg cid,
    post = Printed line :: t
    /\ pre = h0 ++ tg ++ [Printed (checking_line (cr_repo_id a))]
    /\ get_current_git_commit w h0 = (tg, Ok cid)
    /\ upload_results (cr_token a) (cr_repo_id a) cid w
         (pre ++ [CreateRepo a r; Printed line]) = (t, outcome).

(** A creation or upload call goes to the dataset repository [rid]. *)
Definition targets (rid : string) (e : event) : Prop :=
  match e with
  | CreateRepo a _ => cr_repo_id a = rid /\ cr_repo_type a = "dataset"
  | UploadFile a _ => up_repo_id a = rid /\ up_repo_type a = "dataset"
  | _ => True
  end.

(** Induction on a tree, with the hypothesis for every entry of a
    directory. *)
Fixpoint node_tree_ind (P : node -> Prop)
    (HFile : P File) (HSpecial : P Special)
    (HDir : forall es, Forall (fun e => P (snd e)) es -> P (Dir es))
    (HDangling : P (Symlink None))
    (HLink : forall m, P m -> P (Symlink (Some m)))
    (n : node) : P n :=
  match n with
  | File => HFile
  | Special => HSpecial
  | Dir es =>
      HDir es
        ((fix go (l : list (string * node)) : Forall (fun e => P (snd e)) l :=
            match l with
            | [] => List.Forall_nil _
            | e :: l' =>
                @List.Forall_cons _ _ e l'
                  (node_tree_ind P HFile HSpecial HDir HDangling HLink (snd e))
                  (go l')
            end) es)
  | Symlink None => HDangling
  | Symlink (Some m) =>
      HLink m (node_tree_ind P HFile HSpecial HDir HDangling HLink m)
  end.

(** [q] extends [p] by at least one part. *)
Definition below (p q : Pathlib.path) : Prop :=
  exists rest, q = p ++ rest /\ rest <> [].

(** A name a directory listing can hold: not empty, not [.] or [..], no
    separator in it. *)
Definition valid_name (s : string) : bool :=
  (negb (String.eqb s "") && negb (String.eqb s ".")
   && negb (String.eqb s "..") && negb (Str.contains "/" s))%bool.

(** The components [normpath] has collected after [comps], last first. *)
Fixpoint normpath_acc (new_comps comps : list string) : list string :=
  match comps with
  | [] => new_comps
  | comp :: rest =>
      if (String.eqb comp "" || String.eqb comp ".")%bool then
        normpath_acc new_comps rest
      else if String.eqb comp ".." then normpath_acc (tail new_comps) rest
      else normpath_acc (comp :: new_comps) rest
  end.

(** What is printed after the loop. *)
Definition summary_events (rid : string) (cid : option string) : trace :=
  Printed ("Upload complete! Repository available at: https://huggingface.co/datasets/"
         +:+ rid)
  :: match cid with
     | Some (String c s) =>
         [Printed ("Files were uploaded with commit messages including git commit ID: '"
                 +:+ String c s +:+ "'")]
     | _ => []
     end.

Definition uploading_line (rid : string) : string :=
  "Uploading files from " +:+ Pathlib.str results_dir +:+ " to " +:+ rid.

Definition results_error : exn :=
  mkExn ValueError ("Results directory not found at " +:+ Pathlib.str results_dir).

(** An upload whose commit message starts with the fallback prefix. *)
Definition fallback_message (e : event) : Prop :=
  match e with
  | UploadFile a _ => commit_message a = "update" +:+ " - " +:+ path_in_repo a
  | _ => True
  end.

(** Either no upload failed, or the failed upload is the last event, its
    exception is the outcome and no summary was printed before it. *)
Definition fail_last {A} (p : trace * result A) : Prop :=
  Forall no_failed_upload (fst p)
  \/ exists t a x,
       fst p = t ++ [UploadFile a (Raise x)]
       /\ snd p = Raise x
       /\ Forall no_failed_upload t /\ Forall no_summary t.

(** The upload events of the loop: where they go and what they say. *)
Definition loop_upload (tok rid pfx : string) (e : event) : Prop :=
  match e with
  | UploadFile a _ =>
      up_repo_id a = rid /\ up_repo_type a = "dataset" /\ up_token a = tok
      /\ commit_message a = pfx +:+ " - " +:+ path_in_repo a
  | _ => True
  end.

(** [s] holds no line feed. *)
Definition one_line (s : string) : Prop := Str.first_line s = s.

(** ** Further notions for stating properties *)

Definition is_subprocess (e : event) : bool :=
  match e with SubprocessRun _ _ => true | _ => false end.

(** The phases of a run.  A printed line belongs to any phase as long as
    it is not the final summary. *)
Definition identity_phase (e : event) : Prop :=
  match e with
  | Printed line => String.prefix "Upload complete!" line = false
  | Whoami _ _ => True
  | _ => False
  end.

Definition git_phase (e : event) : Prop :=
  match e with
  | Printed line => String.prefix "Upload complete!" line = false
  | SubprocessRun argv _ => argv = argv_git
  | _ => False
  end.

Definition create_phase (e : event) : Prop :=
  match e with
  | Printed line => String.prefix "Upload complete!" line = false
  | CreateRepo a _ => cr_private a = false
  | _ => False
  end.

Definition upload_phase (e : event) : Prop :=
  match e with
  | Printed _ | UploadFile _ _ => True
  | _ => False
  end.

(** A property of the arguments of every upload call. *)
Definition on_upload (Q : upload_args -> Prop) (e : event) : Prop :=
  match e with
  | UploadFile a _ => Q a
  | _ => True
  end.

(** Every call that carries a token carries [tok]. *)
Definition uses_token (tok : string) (e : event) : Prop :=
  match e with
  | Whoami t _ => t = tok
  | CreateRepo a _ => cr_token a = tok
  | UploadFile a _ => up_token a = tok
  | _ => True
  end.

(** The creation call was answered in a way that lets the run go on. *)
Definition creation_passed (r : result unit) : Prop :=
  match r with
  | Ok _ => True
  | Raise e => already_exists e
  end.

(** [n] is found below [r] by going through directories along [q]. *)
Inductive descends : node -> Pathlib.path -> node -> Prop :=
  | descends_entry es name n :
      In (name, n) es -> descends (Dir es) [name] n
  | descends_step es name es' q n :
      In (name, Dir es') es -> descends (Dir es') q n ->
      descends (Dir es) (name :: q) n.

(** [q] leads from [r] to the directory listing [es]; the empty path
    stays at [r]. *)
Definition reaches_dir (r : node) (q : Pathlib.path)
    (es : list (string * node)) : Prop :=
  (q = [] /\ r = Dir es) \/ descends r q (Dir es).

(** Every name in the tree is one a directory listing can hold. *)
Fixpoint wf_node (n : node) : bool :=
  match n with
  | Dir es => forallb (fun e => valid_name (fst e) && wf_node (snd e)) es
  | _ => true
  end.

(** The prefix of the commit messages after git printed [out]. *)
Definition prefix_after (out : string) : string :=
  if String.eqb (Str.strip out) "" then "update"
  else "Update from github (commit id) " +:+ Str.strip out.

Definition commit_line (id : string) : string :=
  "Files were uploaded with commit messages including git commit ID: '"
  +:+ id +:+ "'".

(** The three events of the creation step. *)
Definition creation_head (rid tok : string) (r0 : result unit)
    (line : string) : trace :=
  [Printed (checking_line rid);
   CreateRepo (mkCreate rid "dataset" false tok) r0;
   Printed line].

(** The identity phase [tu] of a run whose token is [tok]. *)
Definition identity_done (d env : environ) (tok : string) (tu : trace) : Prop :=
  nonempty_value (getenv (load_dotenv d env) "HF_TOKEN") = Some tok
  /\ Forall identity_phase tu
  /\ Forall (uses_token tok) tu
  /\ length (List.filter is_whoami tu) <= 1.

(** The seven ways a run can go, each with its events and its outcome. *)
Inductive run_form (d env : environ) (w : world)
  : trace * result unit -> Prop :=
  | form_no_token :
      nonempty_value (getenv (load_dotenv d env) "HF_TOKEN") = None ->
      run_form d env w ([], Raise token_error)
  | form_no_account tok line :
      nonempty_value (getenv (load_dotenv d env) "HF_TOKEN") = Some tok ->
      nonempty_value (getenv (load_dotenv d env) "HF_USERNAME") = None ->
      String.prefix "Upload complete!" line = false ->
      run_form d env w
        ([Printed username_prompt;
          Whoami tok (hub_whoami w [Printed username_prompt] tok);
          Printed line],
         Raise username_error)
  | form_git_raised tok tu tg e :
      identity_done d env tok tu ->
      get_current_git_commit w tu = (tg, Raise e) ->
      run_form d env w (tu ++ tg, Raise e)
  | form_create_refused tok tu tg cid rid line e :
      identity_done d env tok tu ->
      get_current_git_commit w tu = (tg, Ok cid) ->
      String.prefix "Upload complete!" line = false ->
      ~ already_exists e ->
      run_form d env w
        (tu ++ tg ++ creation_head rid tok (Raise e) line, Raise e)
  | form_no_results tok tu tg cid rid line r0 :
      identity_done d env tok tu ->
      get_current_git_commit w tu = (tg, Ok cid) ->
      String.prefix "Upload complete!" line = false ->
      creation_passed r0 ->
      (forall es,
          Pathlib.resolve (Dir (cwd_entries w)) results_dir <> Some (Dir es)) ->
      run_form d env w
        (tu ++ tg ++ creation_head rid tok r0 line, Raise results_error)
  | form_upload_failed tok tu tg cid rid line r0 es h tl e :
      identity_done d env tok tu ->
      get_current_git_commit w tu = (tg, Ok cid) ->
      String.prefix "Upload complete!" line = false ->
      creation_passed r0 ->
      Pathlib.resolve (Dir (cwd_entries w)) results_dir = Some (Dir es) ->
      upload_files tok rid (commit_prefix_of cid)
        (files_below (Pathlib.glob_rec_all results_dir (Dir es))) w h
        = (tl, Raise e) ->
      run_form d env w
        (tu ++ tg ++ creation_head rid tok r0 line
            ++ Printed (uploading_line rid) :: tl,
         Raise e)
  | form_completed tok tu tg cid rid line r0 es h tl :
      identity_done d env tok tu ->
      get_current_git_commit w tu = (tg, Ok cid) ->
      String.prefix "Upload complete!" line = false ->
      creation_passed r0 ->
      Pathlib.resolve (Dir (cwd_entries w)) results_dir = Some (Dir es) ->
      upload_files tok rid (commit_prefix_of cid)
        (files_below (Pathlib.glob_rec_all results_dir (Dir es))) w h
        = (tl, Ok tt) ->
      run_form d env w
        (tu ++ tg ++ creation_head rid tok r0 line
            ++ Printed (uploading_line rid) :: tl ++ summary_events rid cid,
         Ok tt).

(** Worlds used as concrete inputs. *)
Module Examples.

Definition results_tree : node :=
  Dir [("a.txt", File); ("sub", Dir [("b.txt", File)])].

(** Everything answers; git prints one line. *)
Definition w_ok : world :=
  mkWorld
    (fun _ _ => Ok ("abc1234" +:+ String Str.LF ""))
    (fun _ _ => Ok {[ "name" := "alice" ]})
    (fun _ _ => Ok tt)
    (fun _ _ => Ok tt)
    "/home/alice/bench"
    [("results", results_tree); ("upload_to_hf.py", File)].

Definition with_git (w : world) (r : result string) : world :=
  mkWorld (fun _ _ => r) (hub_whoami w) (hub_create_repo w)
    (hub_upload_file w) (cwd w) (cwd_entries w).

Definition with_create (w : world) (r : result unit) : world :=
  mkWorld (subprocess_run w) (hub_whoami w) (fun _ _ => r)
    (hub_upload_file w) (cwd w) (cwd_entries w).

Definition permission_denied : exn :=
  mkExn PermissionError "[Errno 13] Permission denied: 'git'".

Definition git_missing : exn :=
  mkExn FileNotFoundError "[Errno 2] No such file or directory: 'git'".

Definition two_lines : string :=
  "abc1234" +:+ String Str.LF ("def5678" +:+ String Str.LF "").

Definition with_upload (w : world)
    (f : trace -> upload_args -> result unit) : world :=
  mkWorld (subprocess_run w) (hub_whoami w) (hub_create_repo w) f
    (cwd w) (cwd_entries w).

Definition quota_exceeded : exn :=
  mkExn HfHubHTTPError "413 Client Error: Payload Too Large".

(** The hub refuses [results/a.txt]. *)
Definition w_quota : world :=
  with_upload w_ok
    (fun _ a =>
       if String.eqb (path_in_repo a) "results/a.txt"
       then Raise quota_exceeded else Ok tt).

Definition conflict : exn :=
  mkExn HfHubHTTPError
    "409 Client Error: Conflict for url: https://huggingface.co/api/repos/create (You already created this dataset repo)".

Definition w_conflict : world := with_create w_ok (Raise conflict).

Definition w_nogit : world := with_git w_ok (Raise git_missing).

Definition env_token : environ := {[ "HF_TOKEN" := "hf_secret" ]}.

Definition env_full : environ :=
  <[ "HF_USERNAME" := "bob" ]> env_token.

(** [results] holds a directory without any regular file, and a fifo. *)
Definition w_no_files : world :=
  mkWorld (subprocess_run w_ok) (hub_whoami w_ok) (hub_create_repo w_ok)
    (hub_upload_file w_ok) (cwd w_ok)
    [("results", Dir [("logs", Dir []); ("pipe", Special)])].

(** [results] is a regular file. *)
Definition w_results_file : world :=
  mkWorld (subprocess_run w_ok) (hub_whoami w_ok) (hub_create_repo w_ok)
    (hub_upload_file w_ok) (cwd w_ok) [("results", File)].

Definition with_whoami (w : world) (r : result (gmap string string)) : world :=
  mkWorld (subprocess_run w) (fun _ _ => r) (hub_create_repo w)
    (hub_upload_file w) (cwd w) (cwd_entries w).

Definition unauthorized : exn :=
  mkExn HfHubHTTPError "401 Client Error: Unauthorized".

Definition w_unauthorized : world := with_whoami w_ok (Raise unauthorized).

Definition w_permission : world := with_git w_ok (Raise permission_denied).

(** [results] is a link to a directory; in it a file, a link to a file, a
    dangling link, a link to a directory with a file in it, and a
    directory with a file in it. *)
Definition links_tree : node :=
  Dir [("a.txt", File);
       ("alias.txt", Symlink (Some File));
       ("gone", Symlink None);
       ("link", Symlink (Some (Dir [("c.txt", File)])));
       ("sub", Dir [("b.txt", File)])].

Definition w_links : world :=
  mkWorld (subprocess_run w_ok) (hub_whoami w_ok) (hub_create_repo w_ok)
    (hub_upload_file w_ok) (cwd w_ok)
    [("results", Symlink (Some links_tree))].

(** U+00A0, the no-break space, and U+3000, the ideographic space. *)
Definition nbsp : string := Str.utf8 0xA0.
Definition ideographic_space : string := Str.utf8 0x3000.

(** git prints an identifier, a no-break space and a line feed. *)
Definition w_nbsp_git : world :=
  with_git w_ok (Ok ("abc1234" +:+ nbsp +:+ String Str.LF "")).

(** git prints a no-break space and a line feed. *)
Definition w_blank_nbsp : world :=
  with_git w_ok (Ok (nbsp +:+ String Str.LF "")).

Definition env_empty_name : environ :=
  <[ "HF_REPO_NAME" := "" ]> env_full.

End Examples.

(** * Properties *)

(** ** The monad *)

Section Monad.
Context {A B : Type}.

Lemma bind_eq (m : M A) (k : A -> M B) w h :
  bind m k w h =
  match m w h with
  | (t1, Ok a) => (t1 ++ fst (k a w (h ++ t1)), snd (k a w (h ++ t1)))
  | (t1, Raise e) => (t1, Raise e)
  end.
Proof.
  unfold bind. destruct (m w h) as [t1 [a|e]]; [|reflexivity].
  destruct (k a w (h ++ t1)); reflexivity.
Qed.

Lemma try_except_eq (m : M A) (handler : exn -> M A) w h :
  try_except m handler w h =
  match m w h with
  | (t1, Ok a) => (t1, Ok a)
  | (t1, Raise e) =>
      (t1 ++ fst (handler e w (h ++ t1)), snd (handler e w (h ++ t1)))
  end.
Proof.
  unfold try_except. destruct (m w h) as [t1 [a|e]]; [reflexivity|].
  destruct (handler e w (h ++ t1)); reflexivity.
Qed.

End Monad.

(** ** [get_current_git_commit] *)

Lemma get_current_git_commit_eq w h :
  get_current_git_commit w h =
  let r := subprocess_run w h argv_git in
  match r with
  | Ok stdout => ([SubprocessRun argv_git r], Ok (Some (Str.strip stdout)))
  | Raise e =>
      if is_CalledProcessError e then
        ([SubprocessRun argv_git r;
          Printed ("Error getting git commit ID: " +:+ exn_str e)], Ok None)
      else if is_FileNotFoundError e then
        ([SubprocessRun argv_git r;
          Printed "Git command not found. Make sure git is installed."], Ok None)
      else ([SubprocessRun argv_git r], Raise e)
  end.
Proof.
  unfold get_current_git_commit, try_except, bind, call_subprocess, argv_git.
  cbn. destruct (subprocess_run w h _) as [out|e]; cbn; [reflexivity|].
  destruct (is_CalledProcessError e); [reflexivity|].
  destruct (is_FileNotFoundError e); reflexivity.
Qed.

Module StrFacts.

Lemma rstrip_LF s : Str.rstrip (s +:+ String Str.LF "") = Str.rstrip s.
Proof.
  induction s as [|c s IH]; [reflexivity|].
  change (Str.rstrip (String c s +:+ String Str.LF ""))
    with (Str.rstrip_cons c (Str.rstrip (s +:+ String Str.LF ""))).
  rewrite IH. reflexivity.
Qed.

Lemma strip_LF s : Str.strip (s +:+ String Str.LF "") = Str.strip s.
Proof. unfold Str.strip. rewrite rstrip_LF. reflexivity. Qed.

Lemma first_line_LF s :
  one_line s -> Str.first_line (s +:+ String Str.LF "") = s.
Proof.
  unfold one_line. induction s as [|c s IH]; [reflexivity|].
  change (Str.first_line (String c s +:+ String Str.LF ""))
    with (if Ascii.eqb c Str.LF then ""
          else String c (Str.first_line (s +:+ String Str.LF ""))).
  cbn [Str.first_line].
  destruct (Ascii.eqb c Str.LF); [discriminate|].
  intros H. injection H as H. rewrite IH by exact H. reflexivity.
Qed.

(** The whitespace of [str.strip] is Unicode's: a no-break space or an
    ideographic space at either end goes, one inside stays. *)
Lemma strip_unicode_example :
  Str.strip (Examples.ideographic_space +:+ " abc" +:+ Examples.nbsp +:+ "d "
             +:+ Examples.nbsp +:+ String Str.LF "")
  = "abc" +:+ Examples.nbsp +:+ "d"
  /\ Str.strip (Examples.nbsp +:+ String Str.LF "") = "".
Proof. split; reflexivity. Qed.

(** The bytes 0x85 and 0xA0 are whitespace only after the lead byte 0xC2:
    a character whose encoding ends in one of them is kept. *)
Lemma strip_keeps_other_characters :
  Str.strip (Str.utf8 0xE0 +:+ " ") = Str.utf8 0xE0
  /\ Str.strip (Str.utf8 0x2060) = Str.utf8 0x2060.
Proof. split; reflexivity. Qed.

End StrFacts.

(** C8, as amended.  The identifier returned is the whole output of the
    subprocess with the surrounding whitespace removed.  When the output is
    a single line, with or without its final line feed, this is the first
    line trimmed. *)
Theorem get_current_git_commit_strips_output w h out :
  subprocess_run w h argv_git = Ok out ->
  get_current_git_commit w h
    = ([SubprocessRun argv_git (Ok out)], Ok (Some (Str.strip out)))
  /\ (forall line, one_line line ->
        out = line \/ out = line +:+ String Str.LF "" ->
        Str.strip out = Str.strip (Str.first_line out)).
Proof.
  intros Hout. split.
  - rewrite get_current_git_commit_eq, Hout. reflexivity.
  - intros line Hline [->| ->].
    + rewrite Hline. reflexivity.
    + rewrite StrFacts.first_line_LF by exact Hline.
      apply StrFacts.strip_LF.
Qed.

Lemma get_current_git_commit_strips_output_witness :
  get_current_git_commit Examples.w_nbsp_git []
    = ([SubprocessRun argv_git
          (Ok ("abc1234" +:+ Examples.nbsp +:+ String Str.LF ""))],
       Ok (Some "abc1234")).
Proof.
  exact (proj1 (get_current_git_commit_strips_output
                  Examples.w_nbsp_git [] _ eq_refl)).
Defined.

(** C8 as stated fails: on an output of two lines the identifier returned
    keeps both, it is not the first line. *)
Lemma first_line_counterexample :
  ~ (forall w h out,
        subprocess_run w h argv_git = Ok out ->
        snd (get_current_git_commit w h)
          = Ok (Some (Str.strip (Str.first_line out)))).
Proof.
  intros H.
  specialize (H (Examples.with_git Examples.w_ok (Ok Examples.two_lines)) []
                Examples.two_lines eq_refl).
  vm_compute in H. discriminate H.
Qed.

(** C5, as amended.  When the subprocess fails with [CalledProcessError]
    (the command failed) or [FileNotFoundError] (no git), the function
    prints a diagnostic and returns [None] without raising.  Any other
    exception is not caught: it reaches the caller. *)
Theorem get_current_git_commit_failure w h e :
  subprocess_run w h argv_git = Raise e ->
  if (is_CalledProcessError e || is_FileNotFoundError e)%bool then
    exists line,
      get_current_git_commit w h
        = ([SubprocessRun argv_git (Raise e); Printed line], Ok None)
  else
    get_current_git_commit w h = ([SubprocessRun argv_git (Raise e)], Raise e).
Proof.
  intros He. rewrite get_current_git_commit_eq, He. cbv beta iota zeta.
  destruct (is_CalledProcessError e); cbn [orb]; [eauto|].
  destruct (is_FileNotFoundError e); eauto.
Qed.

Lemma get_current_git_commit_failure_witness :
  exists line,
    get_current_git_commit
      (Examples.with_git Examples.w_ok (Raise Examples.git_missing)) []
    = ([SubprocessRun argv_git (Raise Examples.git_missing); Printed line],
       Ok None).
Proof.
  exact (get_current_git_commit_failure
           (Examples.with_git Examples.w_ok (Raise Examples.git_missing)) []
           Examples.git_missing eq_refl).
Defined.

(** C5 as stated fails: a [PermissionError] of the subprocess is raised
    by the function. *)
Lemma never_raises_counterexample :
  ~ (forall w h e,
        subprocess_run w h argv_git = Raise e ->
        exists t, get_current_git_commit w h = (t, Ok None)).
Proof.
  intros H.
  destruct (H (Examples.with_git Examples.w_ok (Raise Examples.permission_denied))
              [] Examples.permission_denied eq_refl) as [t Ht].
  vm_compute in Ht. discriminate Ht.
Qed.

(** ** The configuration *)

Lemma load_dotenv_delete k dotenv os_environ :
  load_dotenv (delete k dotenv) (delete k os_environ)
  = delete k (load_dotenv dotenv os_environ).
Proof. unfold load_dotenv. symmetry. apply delete_union. Qed.

(** The run reads three variables, two of them through a truthiness test. *)
Lemma upload_to_huggingface_env d1 e1 d2 e2 :
  nonempty_value (getenv (load_dotenv d1 e1) "HF_TOKEN")
    = nonempty_value (getenv (load_dotenv d2 e2) "HF_TOKEN") ->
  nonempty_value (getenv (load_dotenv d1 e1) "HF_USERNAME")
    = nonempty_value (getenv (load_dotenv d2 e2) "HF_USERNAME") ->
  getenv_default (load_dotenv d1 e1) "HF_REPO_NAME" "longbench-results"
    = getenv_default (load_dotenv d2 e2) "HF_REPO_NAME" "longbench-results" ->
  upload_to_huggingface d1 e1 = upload_to_huggingface d2 e2.
Proof.
  unfold upload_to_huggingface. cbv zeta.
  generalize (load_dotenv d1 e1), (load_dotenv d2 e2). intros m1 m2 Ht Hu Hr.
  rewrite Hr.
  destruct (getenv m1 "HF_TOKEN") as [[|c1 t1]|],
           (getenv m2 "HF_TOKEN") as [[|c2 t2]|];
    cbn in Ht; try discriminate Ht; try reflexivity.
  injection Ht as -> ->.
  destruct (getenv m1 "HF_USERNAME") as [[|a1 u1]|],
           (getenv m2 "HF_USERNAME") as [[|a2 u2]|];
    cbn in Hu; try discriminate Hu; try reflexivity.
  injection Hu as -> ->. reflexivity.
Qed.

Lemma run_without_token d env w :
  nonempty_value (getenv (load_dotenv d env) "HF_TOKEN") = None ->
  run d env w = ([], Raise token_error).
Proof.
  unfold run, upload_to_huggingface. cbv zeta. rewrite bind_eq.
  destruct (getenv (load_dotenv d env) "HF_TOKEN") as [[|c t]|];
    cbn; intros H; (discriminate H || reflexivity).
Qed.

(** C2.  Without [HF_TOKEN] the run raises at once: no event at all
    happened, so no identity lookup, no creation and no upload. *)
Theorem missing_token_aborts d env w :
  getenv (load_dotenv d env) "HF_TOKEN" = None ->
  run d env w = ([], Raise token_error)
  /\ Forall (fun e => is_network_call e = false) (fst (run d env w)).
Proof.
  intros H. assert (Hr : run d env w = ([], Raise token_error)).
  { apply run_without_token. rewrite H. reflexivity. }
  split; [exact Hr|]. rewrite Hr. constructor.
Qed.

Lemma missing_token_aborts_witness :
  run ∅ ∅ Examples.w_ok = ([], Raise token_error)
  /\ Forall (fun e => is_network_call e = false) (fst (run ∅ ∅ Examples.w_ok)).
Proof. apply missing_token_aborts. reflexivity. Defined.

(** ** The account name *)

Lemma retrieve_username_eq tok w h :
  retrieve_username tok w h =
  let r := hub_whoami w (h ++ [Printed username_prompt]) tok in
  match r with
  | Ok info =>
      match info !! "name" with
      | Some (String c u) =>
          ([Printed username_prompt; Whoami tok r;
            Printed ("Username retrieved: " +:+ String c u)], Ok (String c u))
      | _ =>
          ([Printed username_prompt; Whoami tok r;
            Printed ("Error retrieving username from API: "
                   +:+ exn_str username_error)], Raise username_error)
      end
  | Raise e =>
      ([Printed username_prompt; Whoami tok r;
        Printed ("Error retrieving username from API: " +:+ exn_str e)],
       Raise username_error)
  end.
Proof.
  unfold retrieve_username. rewrite bind_eq. unfold print at 1.
  cbv beta iota zeta. rewrite try_except_eq, bind_eq.
  unfold call_whoami. cbv beta iota zeta.
  fold username_prompt.
  destruct (hub_whoami w (h ++ [Printed username_prompt]) tok) as [info|e];
    [|reflexivity].
  destruct (info !! "name") as [[|c u]|]; reflexivity.
Qed.

Lemma retrieve_username_starts tok w h :
  exists t,
    fst (retrieve_username tok w h)
    = Printed username_prompt
      :: Whoami tok (hub_whoami w (h ++ [Printed username_prompt]) tok) :: t.
Proof.
  rewrite retrieve_username_eq. cbv zeta.
  destruct (hub_whoami w (h ++ [Printed username_prompt]) tok) as [info|e];
    [destruct (info !! "name") as [[|c u]|]|]; cbn [fst]; eauto.
Qed.

(** C9.  A variable set to the empty string counts as unset.  The run is
    the same as with the variable removed from both the process
    environment and the [.env] file; an empty [HF_TOKEN] raises before any
    event, an empty [HF_USERNAME] leads to the identity lookup. *)
Theorem empty_value_is_unset d env w k :
  k = "HF_TOKEN" \/ k = "HF_USERNAME" ->
  getenv (load_dotenv d env) k = Some "" ->
  run d env w = run (delete k d) (delete k env) w
  /\ (k = "HF_TOKEN" -> run d env w = ([], Raise token_error))
  /\ (k = "HF_USERNAME" ->
      forall tok,
        nonempty_value (getenv (load_dotenv d env) "HF_TOKEN") = Some tok ->
        exists t,
          fst (run d env w)
          = Printed username_prompt
            :: Whoami tok (hub_whoami w [Printed username_prompt] tok) :: t).
Proof.
  intros Hk Hempty. split; [|split].
  - unfold run.
    enough (upload_to_huggingface d env
            = upload_to_huggingface (delete k d) (delete k env)) as ->
      by reflexivity.
    apply upload_to_huggingface_env;
      rewrite load_dotenv_delete; unfold getenv, getenv_default in *;
      destruct Hk as [-> | ->];
      rewrite ?lookup_delete_eq, ?Hempty;
      try rewrite lookup_delete_ne by discriminate; reflexivity.
  - intros ->. apply run_without_token. rewrite Hempty. reflexivity.
  - intros -> tok Htok.
    unfold run, upload_to_huggingface. cbv zeta. rewrite bind_eq.
    destruct (getenv (load_dotenv d env) "HF_TOKEN") as [[|c t]|];
      cbn in Htok; try discriminate Htok.
    injection Htok as <-. unfold ret at 1. cbv beta iota.
    rewrite bind_eq, Hempty.
    destruct (retrieve_username_starts (String c t) w ([] ++ [])) as [t' Ht'].
    destruct (retrieve_username (String c t) w ([] ++ [])) as [t1 [u|e]];
      cbn [fst] in Ht'; subst t1; cbn [fst app]; eauto.
Qed.

Lemma empty_value_is_unset_witness :
  exists t,
    fst (run ∅ (<[ "HF_USERNAME" := "" ]> Examples.env_token) Examples.w_ok)
    = Printed username_prompt
      :: Whoami "hf_secret" (hub_whoami Examples.w_ok [Printed username_prompt] "hf_secret")
      :: t.
Proof.
  exact (proj2 (proj2 (empty_value_is_unset ∅
           (<[ "HF_USERNAME" := "" ]> Examples.env_token) Examples.w_ok
           "HF_USERNAME" (or_intror eq_refl) eq_refl))
         eq_refl "hf_secret" eq_refl).
Defined.

(** ** Events of a computation *)

Section Emits.
Context (P : event -> Prop).

Lemma emits_ret {A} (a : A) : emits P (ret a).
Proof. intros w h. constructor. Qed.

Lemma emits_raise {A} e : emits P (@raise A e).
Proof. intros w h. constructor. Qed.

Lemma emits_bind {A B} (m : M A) (k : A -> M B) :
  emits P m -> (forall a, emits P (k a)) -> emits P (bind m k).
Proof.
  intros Hm Hk w h. rewrite bind_eq. specialize (Hm w h).
  destruct (m w h) as [t1 [a|e]]; cbn [fst] in *; [|exact Hm].
  apply Forall_app. split; [exact Hm | apply Hk].
Qed.

Lemma emits_try {A} (m : M A) handler :
  emits P m -> (forall e, emits P (handler e)) -> emits P (try_except m handler).
Proof.
  intros Hm Hk w h. rewrite try_except_eq. specialize (Hm w h).
  destruct (m w h) as [t1 [a|e]]; cbn [fst] in *; [exact Hm|].
  apply Forall_app. split; [exact Hm | apply Hk].
Qed.

Lemma emits_print line : P (Printed line) -> emits P (print line).
Proof. intros H w h. cbn. auto. Qed.

Lemma emits_subprocess argv :
  (forall r, P (SubprocessRun argv r)) -> emits P (call_subprocess argv).
Proof. intros H w h. cbn. auto. Qed.

Lemma emits_whoami tok :
  (forall r, P (Whoami tok r)) -> emits P (call_whoami tok).
Proof. intros H w h. cbn. auto. Qed.

Lemma emits_create a :
  (forall r, P (CreateRepo a r)) -> emits P (call_create_repo a).
Proof. intros H w h. cbn. auto. Qed.

Lemma emits_upload a :
  (forall r, P (UploadFile a r)) -> emits P (call_upload_file a).
Proof. intros H w h. cbn. auto. Qed.

Lemma emits_relpath path start : emits P (os_path_relpath path start).
Proof. intros w h. constructor. Qed.

Lemma emits_exists p : emits P (path_exists p).
Proof. intros w h. constructor. Qed.

Lemma emits_is_dir p : emits P (path_is_dir p).
Proof. intros w h. constructor. Qed.

Lemma emits_glob p : emits P (path_glob_rec_all p).
Proof. intros w h. constructor. Qed.

End Emits.

(** Walks through a computation made of the operations above. *)
Ltac emits_step :=
  first
    [ apply emits_ret | apply emits_raise
    | apply emits_relpath | apply emits_exists | apply emits_is_dir
    | apply emits_glob
    | apply emits_bind; [|intros ?]
    | apply emits_try; [|intros ?]
    | apply emits_print
    | apply emits_subprocess; intros ?
    | apply emits_whoami; intros ?
    | apply emits_create; intros ?
    | apply emits_upload; intros ?
    | match goal with
      | |- emits _ (if ?b then _ else _) => destruct b
      | |- emits _ (match ?o with Some _ => _ | None => _ end) =>
          destruct o as [[|? ?]|]
      end ].

Ltac emits_walk := repeat emits_step.

Lemma emits_upload_files (P : event -> Prop) tok rid pfx files :
  (forall line, P (Printed ("Uploading " +:+ line))) ->
  (forall f rel r,
      P (UploadFile
           (mkUpload f rel rid "dataset" tok (pfx +:+ " - " +:+ rel)) r)) ->
  emits P (upload_files tok rid pfx files).
Proof.
  intros Hp Hu. induction files as [|f rest IH]; cbn [upload_files].
  - apply emits_ret.
  - emits_walk; auto.
Qed.

Ltac emits_auto :=
  emits_walk;
  try solve [ repeat split; reflexivity
            | unfold no_summary, no_upload, no_create, no_whoami,
                no_failed_upload; reflexivity ].

Lemma git_before_create : emits before_create get_current_git_commit.
Proof. unfold get_current_git_commit. emits_auto. Qed.

Lemma git_after_username : emits after_username get_current_git_commit.
Proof. unfold get_current_git_commit. emits_auto. Qed.

Lemma username_before_create tok : emits before_create (retrieve_username tok).
Proof. unfold retrieve_username. emits_auto. Qed.

Lemma create_no_upload rid tok : emits no_upload (create_or_continue rid tok).
Proof. unfold create_or_continue. emits_auto. Qed.

Lemma create_no_summary rid tok : emits no_summary (create_or_continue rid tok).
Proof. unfold create_or_continue. emits_auto. Qed.

Lemma create_after_username rid tok :
  emits after_username (create_or_continue rid tok).
Proof. unfold create_or_continue. emits_auto. Qed.

Lemma upload_files_after_create tok rid pfx files :
  emits after_create (upload_files tok rid pfx files).
Proof. apply emits_upload_files; intros; split; reflexivity. Qed.

Lemma upload_files_no_summary tok rid pfx files :
  emits no_summary (upload_files tok rid pfx files).
Proof. apply emits_upload_files; intros; reflexivity. Qed.

Lemma upload_files_loop_upload tok rid pfx files :
  emits (loop_upload tok rid pfx) (upload_files tok rid pfx files).
Proof.
  apply emits_upload_files; intros; cbn; [exact I | repeat split].
Qed.

Lemma upload_results_after_create tok rid cid :
  emits after_create (upload_results tok rid cid).
Proof.
  unfold upload_results. cbv zeta. emits_walk;
    try apply upload_files_after_create; split; reflexivity.
Qed.

Lemma upload_results_loop_upload tok rid cid :
  emits (loop_upload tok rid (commit_prefix_of cid)) (upload_results tok rid cid).
Proof.
  unfold upload_results. cbv zeta. emits_walk;
    try apply upload_files_loop_upload; exact I.
Qed.

(** ** A failed upload ends the run *)

Section FailLast.

Lemma fail_last_emits {A} (m : M A) :
  emits no_failed_upload m -> forall w h, fail_last (m w h).
Proof. intros H w h. left. apply H. Qed.

Lemma fail_last_bind {A B} (m : M A) (k : A -> M B) :
  (forall w h, fail_last (m w h)) ->
  emits no_summary m ->
  (forall a w h, fail_last (k a w h)) ->
  forall w h, fail_last (bind m k w h).
Proof.
  intros Hm Hs Hk w h. rewrite bind_eq.
  specialize (Hm w h). specialize (Hs w h).
  destruct (m w h) as [t1 [a|e]]; cbn [fst snd] in *.
  2:{ destruct Hm as [Hok | (t & a' & x & Ht & Hx & Hf & Hn)].
      - left. exact Hok.
      - right. exists t, a', x. injection Hx as ->. auto. }
  destruct Hm as [Hok | (t & a' & x & _ & Hx & _)]; [|discriminate Hx].
  destruct (Hk a w (h ++ t1)) as [Hok2 | (t & a' & x & Ht & Hx & Hf & Hn)].
  - left. cbn [fst]. apply Forall_app. auto.
  - right. exists (t1 ++ t), a', x. cbn [fst snd].
    rewrite Ht, app_assoc. repeat split; auto; apply Forall_app; auto.
Qed.

Lemma fail_last_call_upload a w h : fail_last (call_upload_file a w h).
Proof.
  unfold call_upload_file. cbv zeta.
  destruct (hub_upload_file w h a) as [[]|x].
  - left. cbn. repeat constructor.
  - right. exists [], a, x. cbn. repeat split; constructor.
Qed.

Lemma fail_last_upload_files tok rid pfx files w h :
  fail_last (upload_files tok rid pfx files w h).
Proof.
  revert w h. induction files as [|f rest IH]; cbn [upload_files].
  - apply fail_last_emits. apply emits_ret.
  - apply fail_last_bind;
      [apply fail_last_emits; apply emits_relpath | apply emits_relpath |].
    intros rel. apply fail_last_bind;
      [apply fail_last_emits; emits_auto | emits_auto |].
    intros _. apply fail_last_bind;
      [apply fail_last_call_upload | emits_auto |].
    intros _. exact IH.
Qed.

Lemma fail_last_upload_results tok rid cid w h :
  fail_last (upload_results tok rid cid w h).
Proof.
  revert w h. unfold upload_results. cbv zeta.
  apply fail_last_bind;
    [apply fail_last_emits; emits_auto | emits_auto | intros ex].
  apply fail_last_bind;
    [apply fail_last_emits; emits_auto | emits_auto | intros isd].
  apply fail_last_bind;
    [apply fail_last_emits; emits_auto | emits_auto | intros _].
  apply fail_last_bind;
    [apply fail_last_emits; emits_auto | emits_auto | intros _].
  apply fail_last_bind;
    [apply fail_last_emits; emits_auto | emits_auto | intros globbed].
  apply fail_last_bind;
    [intros w h; apply fail_last_upload_files
    | apply upload_files_no_summary | intros _].
  apply fail_last_emits. emits_auto.
Qed.

Lemma fail_last_run d env w : fail_last (run d env w).
Proof.
  unfold run, upload_to_huggingface. cbv zeta. generalize (@nil event).
  revert w.
  apply fail_last_bind;
    [apply fail_last_emits; emits_auto | emits_auto | intros tok].
  apply fail_last_bind; [apply fail_last_emits | | intros user].
  - destruct (getenv _ "HF_USERNAME") as [[|? ?]|];
      try apply emits_ret; unfold retrieve_username; emits_auto.
  - destruct (getenv _ "HF_USERNAME") as [[|? ?]|];
      try apply emits_ret; unfold retrieve_username; emits_auto.
  - apply fail_last_bind;
      [apply fail_last_emits; unfold get_current_git_commit; emits_auto
      | unfold get_current_git_commit; emits_auto | intros cid].
    apply fail_last_bind;
      [apply fail_last_emits; unfold create_or_continue; emits_auto
      | apply create_no_summary | intros _].
    intros w h. apply fail_last_upload_results.
Qed.

End FailLast.

Lemma emits_impl {A} (P Q : event -> Prop) (m : M A) :
  (forall e, P e -> Q e) -> emits P m -> emits Q m.
Proof. intros HPQ Hm w h. eapply Forall_impl; [apply Hm | exact HPQ]. Qed.

Lemma app_failed_last (pre post t : trace) u u' :
  pre ++ u :: post = t ++ [u'] ->
  Forall no_failed_upload t -> failed_upload u = true ->
  post = [] /\ pre = t /\ u = u'.
Proof.
  intros Heq Ht Hu. destruct post as [|z post _] using rev_ind.
  - apply (app_inj_tail pre t u u') in Heq. tauto.
  - exfalso. rewrite app_comm_cons, app_assoc in Heq.
    apply app_inj_tail in Heq as [<- _].
    apply Forall_app in Ht as [_ Ht]. apply Forall_cons in Ht as [Ht _].
    unfold no_failed_upload in Ht. congruence.
Qed.

(** C4.  When an upload call raises, it is the last event of the run: no
    upload follows, the run ends with that very exception and the summary
    line was never printed. *)
Theorem failed_upload_aborts d env w pre a x post :
  fst (run d env w) = pre ++ UploadFile a (Raise x) :: post ->
  post = []
  /\ snd (run d env w) = Raise x
  /\ Forall (fun e => is_summary e = false) (fst (run d env w)).
Proof.
  intros Heq.
  destruct (fail_last_run d env w) as [Hok | (t & a' & x' & Ht & Hx & Hf & Hn)].
  - exfalso. rewrite Heq in Hok. apply Forall_app in Hok as [_ Hok].
    apply Forall_cons in Hok as [Hok _]. discriminate Hok.
  - rewrite Ht in Heq. symmetry in Heq.
    destruct (app_failed_last _ _ _ _ _ Heq Hf eq_refl)
      as (-> & _ & Hu).
    injection Hu as -> ->. repeat split; [exact Hx|].
    rewrite Ht. apply Forall_app. split; [exact Hn|]. repeat constructor.
Qed.

Lemma failed_upload_aborts_witness :
  snd (run ∅ Examples.env_full Examples.w_quota) = Raise Examples.quota_exceeded
  /\ map path_in_repo (upload_calls (fst (run ∅ Examples.env_full Examples.w_quota)))
     = ["results/a.txt"].
Proof.
  split; [|reflexivity].
  exact (proj1 (proj2
    (failed_upload_aborts ∅ Examples.env_full Examples.w_quota
       (removelast (fst (run ∅ Examples.env_full Examples.w_quota)))
       (mkUpload "results/a.txt" "results/a.txt" "bob/longbench-results"
          "dataset" "hf_secret"
          "Update from github (commit id) abc1234 - results/a.txt")
       Examples.quota_exceeded [] eq_refl))).
Defined.

(** C6.  With a non-empty [HF_USERNAME] the run never asks the hub who
    the token belongs to. *)
Theorem username_supplied_no_whoami d env w u :
  getenv (load_dotenv d env) "HF_USERNAME" = Some u ->
  u <> "" ->
  Forall (fun e => is_whoami e = false) (fst (run d env w)).
Proof.
  intros Hu Hne. unfold run, upload_to_huggingface. cbv zeta.
  generalize (@nil event). revert w. rewrite Hu.
  change (emits no_whoami
    (let* hf_token := match getenv (load_dotenv d env) "HF_TOKEN" with
                      | Some (String c t) => ret (String c t)
                      | _ => raise token_error
                      end in
     let* hf_username := match u with
                         | String c u' => ret (String c u')
                         | "" => retrieve_username hf_token
                         end in
     let* commit_id := get_current_git_commit in
     create_or_continue
       (hf_username +:+ "/" +:+
        getenv_default (load_dotenv d env) "HF_REPO_NAME" "longbench-results")
       hf_token >>
     upload_results hf_token
       (hf_username +:+ "/" +:+
        getenv_default (load_dotenv d env) "HF_REPO_NAME" "longbench-results")
       commit_id)).
  apply emits_bind; [emits_auto | intros tok].
  apply emits_bind; [destruct u; [contradiction | apply emits_ret] | intros user].
  apply emits_bind; [apply git_after_username | intros cid].
  apply emits_bind; [apply create_after_username | intros _].
  eapply emits_impl; [|apply upload_results_after_create].
  intros e [_ H]. exact H.
Qed.

Lemma username_supplied_no_whoami_witness :
  Forall (fun e => is_whoami e = false)
    (fst (run ∅ Examples.env_full Examples.w_ok)).
Proof.
  apply (username_supplied_no_whoami ∅ Examples.env_full Examples.w_ok "bob");
    [reflexivity | discriminate].
Defined.

(** ** The steps before the repository is created *)

Lemma bind_assoc {A B C} (m : M A) (k : A -> M B) (k' : B -> M C) w h :
  bind (bind m k) k' w h = bind m (fun a => bind (k a) k') w h.
Proof.
  rewrite !bind_eq. destruct (m w h) as [t1 [a|e]]; [|reflexivity].
  rewrite bind_eq. destruct (k a w (h ++ t1)) as [t2 [b|e]]; cbn [fst snd].
  - rewrite !app_assoc. reflexivity.
  - reflexivity.
Qed.

Lemma bind_ext {A B} (m : M A) (k k' : A -> M B) w h :
  (forall a h', k a w h' = k' a w h') -> bind m k w h = bind m k' w h.
Proof.
  intros H. rewrite !bind_eq. destruct (m w h) as [t1 [a|e]]; [|reflexivity].
  rewrite H. reflexivity.
Qed.

Lemma bind_ret_l {A B} (a : A) (k : A -> M B) w h :
  bind (ret a) k w h = k a w h.
Proof.
  rewrite bind_eq. cbn. rewrite app_nil_r. destruct (k a w h); reflexivity.
Qed.

Lemma upload_to_huggingface_prelude d env w h :
  upload_to_huggingface d env w h =
  bind (prelude d env)
    (fun p =>
       create_or_continue (snd (fst p)) (fst (fst p)) >>
       upload_results (fst (fst p)) (snd (fst p)) (snd p)) w h.
Proof.
  unfold upload_to_huggingface, prelude. cbv zeta.
  rewrite bind_assoc. apply bind_ext. intros tok h1.
  rewrite bind_assoc. apply bind_ext. intros user h2.
  rewrite bind_assoc. apply bind_ext. intros cid h3.
  rewrite bind_ret_l. reflexivity.
Qed.

Lemma prelude_before_create d env : emits before_create (prelude d env).
Proof.
  unfold prelude. cbv zeta.
  apply emits_bind; [emits_auto | intros tok].
  apply emits_bind; [|intros user].
  - destruct (getenv _ "HF_USERNAME") as [[|? ?]|];
      try apply emits_ret; apply username_before_create.
  - apply emits_bind; [apply git_before_create | intros cid; apply emits_ret].
Qed.

Lemma retrieve_username_ok tok w h t user :
  retrieve_username tok w h = (t, Ok user) ->
  exists info,
    In (Whoami tok (Ok info)) t /\ nonempty_value (info !! "name") = Some user.
Proof.
  rewrite retrieve_username_eq. cbv zeta.
  destruct (hub_whoami w (h ++ [Printed username_prompt]) tok) as [info|e];
    [|discriminate].
  destruct (info !! "name") as [[|c u]|] eqn:Hname; try discriminate.
  intros H. injection H as <- <-. exists info. rewrite Hname.
  split; [right; left; reflexivity | reflexivity].
Qed.

Lemma prelude_ok d env w h t tok rid cid :
  prelude d env w h = (t, Ok (tok, rid, cid)) ->
  nonempty_value (getenv (load_dotenv d env) "HF_TOKEN") = Some tok
  /\ exists tu tg account,
      t = tu ++ tg
      /\ get_current_git_commit w (h ++ tu) = (tg, Ok cid)
      /\ rid = account +:+ "/" +:+
               getenv_default (load_dotenv d env) "HF_REPO_NAME" "longbench-results"
      /\ account_from (load_dotenv d env) tok tu account.
Proof.
  unfold prelude, account_from. cbv zeta.
  generalize (load_dotenv d env). intros m.
  rewrite bind_eq.
  destruct (getenv m "HF_TOKEN") as [[|c tk]|]; try discriminate.
  unfold ret at 1. cbv beta iota. rewrite app_nil_r, bind_eq.
  destruct (match getenv m "HF_USERNAME" with
            | Some (String c0 u) => ret (String c0 u)
            | _ => retrieve_username (String c tk)
            end w h) as [tu [user|e]] eqn:Huser; [|discriminate].
  rewrite bind_eq.
  destruct (get_current_git_commit w (h ++ tu)) as [tg [cid'|e]] eqn:Hgit;
    [|discriminate].
  cbn. rewrite app_nil_r. intros H. injection H as <- <- <- <-.
  split; [reflexivity|]. exists tu, tg, user.
  repeat split; [exact Hgit|].
  destruct (getenv m "HF_USERNAME") as [[|c0 u]|]; cbn;
    try (eapply retrieve_username_ok; exact Huser).
  cbn in Huser. injection Huser as <- <-. auto.
Qed.

(** ** Creating the repository *)

Lemma prefix_spec a s :
  String.prefix a s = true <-> exists post, s = a +:+ post.
Proof.
  revert s. induction a as [|c a IH]; intros s.
  - split; [intros _; exists s; reflexivity | intros _; destruct s; reflexivity].
  - destruct s as [|c' s]; cbn [String.prefix].
    + split; [discriminate | intros [post H]; discriminate H].
    + destruct (Ascii.ascii_dec c c') as [<-|Hne].
      * rewrite IH. split; intros [post H]; exists post.
        -- cbn. rewrite H. reflexivity.
        -- cbn in H. injection H as H. exact H.
      * split; [discriminate | intros [post H]].
        cbn in H. injection H as H _. congruence.
Qed.

Lemma contains_spec sub s :
  Str.contains sub s = true <-> substring_of sub s.
Proof.
  unfold substring_of. induction s as [|c s IH]; cbn [Str.contains].
  - rewrite orb_false_r, prefix_spec. split.
    + intros [post H]. exists "", post. exact H.
    + intros (pre & post & H). destruct pre; [exists post; exact H|].
      discriminate H.
  - rewrite orb_true_iff, prefix_spec, IH. split.
    + intros [[post H] | (pre & post & H)].
      * exists "", post. exact H.
      * exists (String c pre), post. cbn. rewrite H. reflexivity.
    + intros (pre & post & H). destruct pre as [|c' pre].
      * left. exists post. exact H.
      * right. cbn in H. injection H as _ H. eauto.
Qed.

Lemma already_exists_spec e :
  (Str.contains "You already created this" (exn_str e)
   || Str.contains "409" (exn_str e))%bool = true <-> already_exists e.
Proof.
  unfold already_exists. rewrite orb_true_iff, !contains_spec. tauto.
Qed.

Lemma create_or_continue_eq rid tok w h :
  create_or_continue rid tok w h =
  let a := mkCreate rid "dataset" false tok in
  let p := Printed (checking_line rid) in
  let r := hub_create_repo w (h ++ [p]) a in
  match r with
  | Ok _ => ([p; CreateRepo a r; Printed "Repository created successfully"], Ok tt)
  | Raise e =>
      if (Str.contains "You already created this" (exn_str e)
          || Str.contains "409" (exn_str e))%bool
      then ([p; CreateRepo a r;
             Printed "Repository already exists, continuing with upload..."], Ok tt)
      else ([p; CreateRepo a r;
             Printed ("Error while creating repository: " +:+ exn_str e)], Raise e)
  end.
Proof.
  unfold create_or_continue. rewrite bind_eq. unfold print at 1.
  cbv beta iota zeta. rewrite try_except_eq, bind_eq.
  unfold call_create_repo. cbv beta iota zeta. fold (checking_line rid).
  destruct (hub_create_repo w _ _) as [[]|e]; [reflexivity|].
  cbn [fst snd].
  destruct (Str.contains "You already created this" (exn_str e)
            || Str.contains "409" (exn_str e))%bool; reflexivity.
Qed.

Lemma create_split_unique (l1 l2 l1' l2' : trace) x y :
  l1 ++ x :: l2 = l1' ++ y :: l2' ->
  Forall no_create l1 -> Forall no_create l2 -> is_create y = true ->
  l1 = l1' /\ x = y /\ l2 = l2'.
Proof.
  revert l1'. induction l1 as [|a l1 IH]; intros l1' Heq H1 H2 Hy.
  - destruct l1' as [|z l1']; cbn in Heq.
    + injection Heq as -> ->. auto.
    + exfalso. injection Heq as -> ->.
      apply Forall_app in H2 as [_ H2]. apply Forall_cons in H2 as [H2 _].
      unfold no_create in H2. congruence.
  - apply Forall_cons in H1 as [Ha H1].
    destruct l1' as [|z l1']; cbn in Heq.
    + exfalso. injection Heq as -> _. unfold no_create in Ha. congruence.
    + injection Heq as -> Heq.
      destruct (IH l1' Heq H1 H2 Hy) as (-> & -> & ->). auto.
Qed.

Lemma run_prelude_raise d env w t e :
  prelude d env w [] = (t, Raise e) -> run d env w = (t, Raise e).
Proof.
  intros H. unfold run. rewrite upload_to_huggingface_prelude, bind_eq, H.
  reflexivity.
Qed.

Lemma run_prelude_ok d env w t tok rid cid :
  prelude d env w [] = (t, Ok (tok, rid, cid)) ->
  run d env w =
  (t ++ fst ((create_or_continue rid tok >> upload_results tok rid cid) w t),
   snd ((create_or_continue rid tok >> upload_results tok rid cid) w t)).
Proof.
  intros H. unfold run. rewrite upload_to_huggingface_prelude, bind_eq, H.
  reflexivity.
Qed.

Lemma create_then_upload_eq rid tok cid w h :
  (create_or_continue rid tok >> upload_results tok rid cid) w h =
  let a := mkCreate rid "dataset" false tok in
  let p := Printed (checking_line rid) in
  let r := hub_create_repo w (h ++ [p]) a in
  let go line :=
    (p :: CreateRepo a r :: Printed line
       :: fst (upload_results tok rid cid w
                 ((h ++ [p]) ++ [CreateRepo a r; Printed line])),
     snd (upload_results tok rid cid w
            ((h ++ [p]) ++ [CreateRepo a r; Printed line]))) in
  match r with
  | Ok _ => go "Repository created successfully"
  | Raise e =>
      if (Str.contains "You already created this" (exn_str e)
          || Str.contains "409" (exn_str e))%bool
      then go "Repository already exists, continuing with upload..."
      else ([p; CreateRepo a r;
             Printed ("Error while creating repository: " +:+ exn_str e)], Raise e)
  end.
Proof.
  rewrite bind_eq, create_or_continue_eq. cbv zeta.
  destruct (hub_create_repo w _ _) as [[]|e].
  - cbn [app fst snd]. rewrite <- app_assoc. reflexivity.
  - destruct (Str.contains "You already created this" (exn_str e)
              || Str.contains "409" (exn_str e))%bool; [|reflexivity].
    cbn [app fst snd]. rewrite <- app_assoc. reflexivity.
Qed.

Lemma before_create_no_create t :
  Forall before_create t -> Forall no_create t.
Proof.
  intros Ht. eapply Forall_impl; [exact Ht|]. intros e (_ & H & _). exact H.
Qed.

Lemma before_create_no_upload t :
  Forall before_create t -> Forall no_upload t.
Proof.
  intros Ht. eapply Forall_impl; [exact Ht|]. intros e (H & _). exact H.
Qed.

Lemma upload_results_no_create tok rid cid w h :
  Forall no_create (fst (upload_results tok rid cid w h)).
Proof.
  eapply Forall_impl; [apply upload_results_after_create|].
  intros e [H _]. exact H.
Qed.

(** C1.  Take the creation call of a run, with the events [pre] before it
    and [post] after it.  When it succeeds, or raises an error whose text
    holds "409" or "You already created this", the run prints a line and
    goes on with the directory check and the upload loop, the same way in
    both cases.  When it raises any other error the run prints it and ends
    with that error, and no upload call was made. *)
Theorem create_error_handling d env w pre a r post :
  fst (run d env w) = pre ++ CreateRepo a r :: post ->
  match r with
  | Ok _ =>
      continues_with_upload w (snd (run d env w)) pre a r
        "Repository created successfully" post
  | Raise e =>
      (already_exists e ->
       continues_with_upload w (snd (run d env w)) pre a r
         "Repository already exists, continuing with upload..." post)
      /\ (~ already_exists e ->
          post = [Printed ("Error while creating repository: " +:+ exn_str e)]
          /\ snd (run d env w) = Raise e
          /\ Forall (fun ev => is_upload ev = false) (fst (run d env w)))
  end.
Proof.
  intros Heq.
  pose proof (prelude_before_create d env w []) as Hpre.
  destruct (prelude d env w []) as [t [[[tok rid] cid]|e0]] eqn:Hp.
  2:{ exfalso. rewrite (run_prelude_raise _ _ _ _ _ Hp) in Heq.
      cbn [fst] in Heq, Hpre. rewrite Heq in Hpre.
      apply Forall_app in Hpre as [_ Hpre].
      apply Forall_cons in Hpre as [(_ & Hc & _) _]. discriminate Hc. }
  cbn [fst] in Hpre.
  destruct (prelude_ok _ _ _ _ _ _ _ _ Hp) as (_ & tu & tg & acc & Ht & Hgit & _).
  rewrite (run_prelude_ok _ _ _ _ _ _ _ Hp) in Heq |- *.
  rewrite create_then_upload_eq in Heq |- *. cbv zeta in Heq |- *.
  cbn [fst snd] in Heq.
  set (a0 := mkCreate rid "dataset" false tok) in *.
  set (p := Printed (checking_line rid)) in *.
  assert (Hsplit : forall line tl ev,
    t ++ p :: CreateRepo a0 ev :: Printed line :: tl = pre ++ CreateRepo a r :: post ->
    Forall no_create tl ->
    pre = t ++ [p] /\ a = a0 /\ r = ev /\ post = Printed line :: tl).
  { intros line tl ev H Htl.
    change (t ++ p :: CreateRepo a0 ev :: Printed line :: tl)
      with (t ++ [p] ++ CreateRepo a0 ev :: Printed line :: tl) in H.
    rewrite app_assoc in H.
    destruct (create_split_unique _ _ _ _ _ _ H) as (<- & Hev & <-).
    - apply Forall_app. split; [apply before_create_no_create; exact Hpre|].
      repeat constructor.
    - constructor; [reflexivity | exact Htl].
    - reflexivity.
    - injection Hev as <- <-. auto. }
  assert (Hgo : forall line ev,
    pre = t ++ [p] -> a = a0 -> r = ev ->
    post = Printed line
             :: fst (upload_results tok rid cid w
                       ((t ++ [p]) ++ [CreateRepo a0 ev; Printed line])) ->
    continues_with_upload w
      (snd (upload_results tok rid cid w
              ((t ++ [p]) ++ [CreateRepo a0 ev; Printed line])))
      pre a r line post).
  { intros line ev -> -> -> ->. eexists _, tu, tg, cid.
    split; [reflexivity|]. split; [|split].
    - rewrite Ht, <- app_assoc. reflexivity.
    - exact Hgit.
    - cbn [cr_token cr_repo_id a0]. apply surjective_pairing. }
  destruct (hub_create_repo w (t ++ [p]) a0) as [[]|e] eqn:Hr.
  - cbn [fst snd] in Heq |- *.
    destruct (Hsplit _ _ _ Heq (upload_results_no_create _ _ _ _ _))
      as (Hpre' & Ha & Hr' & Hpost).
    subst r. apply Hgo; auto.
  - destruct (Str.contains "You already created this" (exn_str e)
              || Str.contains "409" (exn_str e))%bool eqn:Hc.
    + cbn [fst snd] in Heq |- *.
      destruct (Hsplit _ _ _ Heq (upload_results_no_create _ _ _ _ _))
        as (Hpre' & Ha & Hr' & Hpost).
      subst r. split; [intros _; apply Hgo; auto|].
      intros Hn. exfalso. apply Hn, already_exists_spec. exact Hc.
    + cbn [fst snd] in Heq |- *.
      destruct (Hsplit _ [] _ Heq (List.Forall_nil _))
        as (Hpre' & Ha & Hr' & Hpost).
      subst r. split.
      * intros He. apply already_exists_spec in He. congruence.
      * intros _. repeat split; [exact Hpost|].
        apply Forall_app. split; [apply before_create_no_upload; exact Hpre|].
        repeat constructor.
Qed.

Lemma create_error_handling_witness :
  continues_with_upload Examples.w_conflict
    (snd (run ∅ Examples.env_full Examples.w_conflict))
    [SubprocessRun argv_git (Ok ("abc1234" +:+ String Str.LF ""));
     Printed (checking_line "bob/longbench-results")]
    (mkCreate "bob/longbench-results" "dataset" false "hf_secret")
    (Raise Examples.conflict)
    "Repository already exists, continuing with upload..."
    (drop 3 (fst (run ∅ Examples.env_full Examples.w_conflict))).
Proof.
  assert (Hrun :
    fst (run ∅ Examples.env_full Examples.w_conflict) =
    [SubprocessRun argv_git (Ok ("abc1234" +:+ String Str.LF ""));
     Printed (checking_line "bob/longbench-results")] ++
    CreateRepo (mkCreate "bob/longbench-results" "dataset" false "hf_secret")
      (Raise Examples.conflict)
    :: drop 3 (fst (run ∅ Examples.env_full Examples.w_conflict)))
    by (vm_compute; reflexivity).
  assert (Hex : already_exists Examples.conflict)
    by (apply already_exists_spec; vm_compute; reflexivity).
  pose proof (create_error_handling ∅ Examples.env_full Examples.w_conflict
                _ _ _ _ Hrun) as H.
  cbv beta iota in H. destruct H as [H _]. exact (H Hex).
Defined.

(** ** One repository identifier per run *)

Lemma create_targets rid tok : emits (targets rid) (create_or_continue rid tok).
Proof. unfold create_or_continue. emits_auto. Qed.

Lemma upload_results_targets tok rid cid :
  emits (targets rid) (upload_results tok rid cid).
Proof.
  unfold upload_results. cbv zeta. emits_walk; try exact I.
  apply emits_upload_files; intros; cbn; auto.
Qed.

Lemma before_create_targets rid t :
  Forall before_create t -> Forall (targets rid) t.
Proof.
  intros Ht. eapply Forall_impl; [exact Ht|].
  intros [] (Hu & Hc & _); cbn in *; (exact I || discriminate).
Qed.

(** C10.  One identifier serves the whole run: the creation call and every
    upload call go to ["<account>/<name>"] with type ["dataset"], where the
    name is [HF_REPO_NAME] or ["longbench-results"] when it is unset, and
    the account is the non-empty [HF_USERNAME] or else the name the
    identity lookup of this run answered. *)
Theorem repo_id_fixed d env w :
  let m := load_dotenv d env in
  let name := match getenv m "HF_REPO_NAME" with
              | Some n => n
              | None => "longbench-results"
              end in
  exists account,
    Forall (targets (account +:+ "/" +:+ name)) (fst (run d env w))
    /\ (Exists (fun e => is_create e = true \/ is_upload e = true)
          (fst (run d env w)) ->
        exists tok tu rest,
          fst (run d env w) = tu ++ rest
          /\ account_from m tok tu account).
Proof.
  cbv zeta.
  pose proof (prelude_before_create d env w []) as Hpre.
  destruct (prelude d env w []) as [t [[[tok rid] cid]|e0]] eqn:Hp;
    cbn [fst] in Hpre.
  - destruct (prelude_ok _ _ _ _ _ _ _ _ Hp)
      as (_ & tu & tg & acc & Ht & _ & Hrid & Hacc).
    exists acc. rewrite (run_prelude_ok _ _ _ _ _ _ _ Hp). cbn [fst].
    assert (Hname :
      match getenv (load_dotenv d env) "HF_REPO_NAME" with
      | Some n => n
      | None => "longbench-results"
      end = getenv_default (load_dotenv d env) "HF_REPO_NAME" "longbench-results").
    { unfold getenv_default, getenv.
      destruct (load_dotenv d env !! "HF_REPO_NAME"); reflexivity. }
    rewrite Hname, <- Hrid. split.
    + apply Forall_app. split; [apply before_create_targets; exact Hpre|].
      apply (emits_bind (targets rid));
        [apply create_targets | intros _; apply upload_results_targets].
    + intros _. exists tok, tu. eexists. split; [|exact Hacc].
      rewrite Ht, <- app_assoc. reflexivity.
  - exists "". rewrite (run_prelude_raise _ _ _ _ _ Hp). cbn [fst]. split.
    + apply before_create_targets. exact Hpre.
    + intros Hex. exfalso. apply Exists_exists in Hex as (e & Hin & He).
      rewrite Forall_forall in Hpre. destruct (Hpre e Hin) as (Hu & Hc & _).
      destruct He; congruence.
Qed.

(** ** Paths *)

Module PathFacts.

(** Following links ends at something that is not a link. *)
Lemma follow_no_symlink n t : Pathlib.follow n <> Some (Symlink t).
Proof.
  induction n as [| |es _| |m IH] using node_tree_ind;
    cbn [Pathlib.follow]; try discriminate.
  exact IH.
Qed.

Lemma resolve_no_symlink n p t : Pathlib.resolve n p <> Some (Symlink t).
Proof.
  revert n. induction p as [|name p IH]; intros n; cbn [Pathlib.resolve].
  - apply follow_no_symlink.
  - destruct (Pathlib.follow n) as [[|es| |t']|]; try discriminate.
    destruct (Pathlib.lookup_entry name es); [apply IH | discriminate].
Qed.

Lemma iterate_directories_prefix n :
  forall p,
    Forall (fun d => exists q, fst d = p ++ q)
           (Pathlib.iterate_directories p n).
Proof.
  induction n as [| |es IH| |m _] using node_tree_ind; intros p;
    cbn [Pathlib.iterate_directories]; try constructor.
  - exists []. cbn. rewrite app_nil_r. reflexivity.
  - apply Forall_flat_map. eapply Forall_impl; [exact IH|].
    intros e He. cbn beta in He. eapply Forall_impl; [apply He|].
    intros d [q Hq]. exists (fst e :: q). rewrite Hq, <- app_assoc.
    reflexivity.
Qed.

Lemma glob_rec_all_below p n :
  Forall (fun e => below p (fst e)) (Pathlib.glob_rec_all p n).
Proof.
  unfold Pathlib.glob_rec_all. apply Forall_flat_map.
  eapply Forall_impl; [apply iterate_directories_prefix|].
  intros [p' es] [q Hq]. cbn [fst] in Hq. subst p'.
  unfold Pathlib.select_children. cbn [fst snd].
  apply Forall_map. apply Forall_forall. intros e _. cbn [fst].
  exists (q ++ [fst e]). rewrite app_assoc. split; [reflexivity|].
  destruct q; discriminate.
Qed.

Lemma str_below_results q :
  below results_dir q -> Pathlib.str q <> "".
Proof.
  intros (rest & -> & Hne). destruct rest as [|x rest]; [contradiction|].
  discriminate.
Qed.

Lemma Forall_bool_filter {A} (P : A -> Prop) f (l : list A) :
  Forall P l -> Forall P (List.filter f l).
Proof.
  induction 1 as [|x l Hx _ IH]; cbn; [constructor|].
  destruct (f x); [constructor|]; assumption.
Qed.

Lemma files_below_nonempty n :
  Forall (fun f => f <> "")
         (files_below (Pathlib.glob_rec_all results_dir n)).
Proof.
  unfold files_below. apply Forall_map.
  apply Forall_bool_filter. eapply Forall_impl; [apply glob_rec_all_below|].
  intros e He. cbn beta. apply str_below_results. exact He.
Qed.

End PathFacts.

(** ** The upload loop *)

Lemma upload_calls_app t1 t2 :
  upload_calls (t1 ++ t2) = upload_calls t1 ++ upload_calls t2.
Proof.
  induction t1 as [|e t1 IH]; [reflexivity|].
  destruct e; cbn; rewrite IH; reflexivity.
Qed.

Lemma upload_calls_no_upload t :
  Forall no_upload t -> upload_calls t = [].
Proof.
  induction 1 as [|e t He _ IH]; [reflexivity|].
  destruct e; cbn; try exact IH. discriminate He.
Qed.

Lemma upload_files_cons tok rid pfx f rest w h :
  upload_files tok rid pfx (f :: rest) w h =
  match Posixpath.relpath (cwd w) f "." with
  | Raise e => ([], Raise e)
  | Ok rel =>
      let a := mkUpload f rel rid "dataset" tok (pfx +:+ " - " +:+ rel) in
      let p := Printed ("Uploading " +:+ rel) in
      let r := hub_upload_file w (h ++ [p]) a in
      match r with
      | Ok _ =>
          (p :: UploadFile a r
             :: fst (upload_files tok rid pfx rest w (h ++ [p; UploadFile a r])),
           snd (upload_files tok rid pfx rest w (h ++ [p; UploadFile a r])))
      | Raise e => ([p; UploadFile a r], Raise e)
      end
  end.
Proof.
  cbn [upload_files]. unfold bind, os_path_relpath, print, call_upload_file.
  destruct (Posixpath.relpath (cwd w) f ".") as [rel|e]; [|reflexivity].
  cbv beta iota zeta. rewrite app_nil_r.
  destruct (hub_upload_file w (h ++ [Printed ("Uploading " +:+ rel)]) _) as [[]|e];
    [|reflexivity].
  rewrite <- app_assoc. cbn [app].
  destruct (upload_files tok rid pfx rest w _) as [t2 r]. reflexivity.
Qed.

Lemma upload_files_ok_inv tok rid pfx files w :
  forall h,
    snd (upload_files tok rid pfx files w h) = Ok tt ->
    Forall2
      (fun f a =>
         path_or_fileobj a = f
         /\ Posixpath.relpath (cwd w) f "." = Ok (path_in_repo a))
      files (upload_calls (fst (upload_files tok rid pfx files w h))).
Proof.
  induction files as [|f rest IH]; intros h Hok; [constructor|].
  rewrite upload_files_cons in Hok |- *.
  destruct (Posixpath.relpath (cwd w) f ".") as [rel|e] eqn:Hrel;
    [|discriminate Hok].
  cbv zeta in Hok |- *.
  destruct (hub_upload_file w _ _) as [[]|e]; [|discriminate Hok].
  cbn [fst snd upload_calls] in Hok |- *.
  constructor; [split; [reflexivity | exact Hrel] | apply IH; exact Hok].
Qed.

Lemma relpath_nonempty_ok cwd f start :
  f <> "" -> exists rel, Posixpath.relpath cwd f start = Ok rel.
Proof.
  intros Hf. unfold Posixpath.relpath.
  destruct (String.eqb_spec f ""); [contradiction|]. cbv zeta.
  destruct (repeat ".." _ ++ drop _ _); eauto.
Qed.

Lemma upload_files_all_ok tok rid pfx files w :
  (forall h a, hub_upload_file w h a = Ok tt) ->
  Forall (fun f => f <> "") files ->
  forall h,
    snd (upload_files tok rid pfx files w h) = Ok tt
    /\ map path_or_fileobj (upload_calls (fst (upload_files tok rid pfx files w h)))
       = files.
Proof.
  intros Hup Hfiles. induction Hfiles as [|f rest Hf _ IH]; intros h.
  - split; reflexivity.
  - rewrite upload_files_cons.
    destruct (relpath_nonempty_ok (cwd w) f "." Hf) as [rel ->].
    cbv zeta. rewrite Hup. cbn [fst snd upload_calls map path_or_fileobj].
    destruct (IH (h ++ [Printed ("Uploading " +:+ rel);
                        UploadFile
                          (mkUpload f rel rid "dataset" tok (pfx +:+ " - " +:+ rel))
                          (Ok tt)])) as [-> ->].
    split; reflexivity.
Qed.

Lemma upload_results_eq tok rid cid w h :
  upload_results tok rid cid w h =
  match Pathlib.resolve (Dir (cwd_entries w)) results_dir with
  | Some (Dir es) =>
      let p := Printed (uploading_line rid) in
      let files := files_below (Pathlib.glob_rec_all results_dir (Dir es)) in
      let L := upload_files tok rid (commit_prefix_of cid) files w (h ++ [p]) in
      match snd L with
      | Ok _ => (p :: fst L ++ summary_events rid cid, Ok tt)
      | Raise e => (p :: fst L, Raise e)
      end
  | _ => ([], Raise results_error)
  end.
Proof.
  unfold upload_results, bind, path_exists, path_is_dir, path_glob_rec_all,
    print, ret, raise.
  cbv beta iota zeta. fold (uploading_line rid). fold results_error.
  destruct (Pathlib.resolve (Dir (cwd_entries w)) results_dir)
    as [[|es| |t]|] eqn:Hres; try reflexivity;
    [|destruct (PathFacts.resolve_no_symlink _ _ _ Hres)].
  cbn [negb orb Pathlib.is_dir_node Pathlib.follow app]. rewrite !app_nil_r.
  destruct (upload_files tok rid (commit_prefix_of cid) _ w _) as [tl [[]|e]];
    [|reflexivity].
  cbn [fst snd app]. unfold summary_events.
  destruct cid as [[|c s]|]; cbn [app]; rewrite ?app_nil_r; reflexivity.
Qed.

(** ** Without a revision identifier *)

Lemma prelude_supplied d env w h tok u :
  nonempty_value (getenv (load_dotenv d env) "HF_TOKEN") = Some tok ->
  nonempty_value (getenv (load_dotenv d env) "HF_USERNAME") = Some u ->
  prelude d env w h =
  (fst (get_current_git_commit w h),
   match snd (get_current_git_commit w h) with
   | Ok cid =>
       Ok (tok,
           u +:+ "/" +:+
             getenv_default (load_dotenv d env) "HF_REPO_NAME" "longbench-results",
           cid)
   | Raise e => Raise e
   end).
Proof.
  unfold prelude. cbv zeta. generalize (load_dotenv d env). intros m Ht Hu.
  destruct (getenv m "HF_TOKEN") as [[|c t]|]; try discriminate Ht.
  destruct (getenv m "HF_USERNAME") as [[|c' u']|]; try discriminate Hu.
  cbn in Ht, Hu. injection Ht as <-. injection Hu as <-.
  rewrite bind_ret_l, bind_ret_l, bind_eq.
  destruct (get_current_git_commit w h) as [tg [cid|e]]; cbn;
    rewrite ?app_nil_r; reflexivity.
Qed.

Lemma loop_upload_fallback tok rid e :
  loop_upload tok rid "update" e -> fallback_message e.
Proof. destruct e; cbn; tauto. Qed.

Lemma no_upload_fallback e : no_upload e -> fallback_message e.
Proof. destruct e; cbn; (exact (fun _ => I) || discriminate). Qed.

(** C7.  When the revision lookup returns [None], every upload of the run
    carries the message ["update - <path>"].  The run is not cut short by
    it: with the token and the account configured, a hub that accepts the
    creation and every upload, and [results] a directory, the run ends
    normally after one upload call for every file found. *)
Theorem git_failure_uses_fallback d env w :
  (forall h, snd (get_current_git_commit w h) = Ok None) ->
  Forall fallback_message (fst (run d env w))
  /\ (forall tok u es,
        nonempty_value (getenv (load_dotenv d env) "HF_TOKEN") = Some tok ->
        nonempty_value (getenv (load_dotenv d env) "HF_USERNAME") = Some u ->
        (forall h a, hub_create_repo w h a = Ok tt) ->
        (forall h a, hub_upload_file w h a = Ok tt) ->
        Pathlib.resolve (Dir (cwd_entries w)) results_dir = Some (Dir es) ->
        snd (run d env w) = Ok tt
        /\ map path_or_fileobj (upload_calls (fst (run d env w)))
           = files_below (Pathlib.glob_rec_all results_dir (Dir es))).
Proof.
  intros Hgit. split.
  - pose proof (prelude_before_create d env w []) as Hpre.
    destruct (prelude d env w []) as [t [[[tok rid] cid]|e0]] eqn:Hp;
      cbn [fst] in Hpre.
    + destruct (prelude_ok _ _ _ _ _ _ _ _ Hp)
        as (_ & tu & tg & acc & _ & Hg & _).
      specialize (Hgit ([] ++ tu)). rewrite Hg in Hgit. cbn in Hgit.
      injection Hgit as ->.
      rewrite (run_prelude_ok _ _ _ _ _ _ _ Hp). cbn [fst].
      apply Forall_app. split.
      * eapply Forall_impl; [apply before_create_no_upload; exact Hpre|].
        exact no_upload_fallback.
      * apply (emits_bind fallback_message).
        -- eapply emits_impl; [exact no_upload_fallback | apply create_no_upload].
        -- intros _. eapply emits_impl;
             [apply loop_upload_fallback
             | apply (upload_results_loop_upload tok rid None)].
    + rewrite (run_prelude_raise _ _ _ _ _ Hp). cbn [fst].
      eapply Forall_impl; [apply before_create_no_upload; exact Hpre|].
      exact no_upload_fallback.
  - intros tok u es Htok Hu Hcreate Hup Hres.
    pose proof (prelude_supplied d env w [] tok u Htok Hu) as Hp.
    pose proof (git_before_create w []) as Hg.
    specialize (Hgit []).
    destruct (get_current_git_commit w []) as [tg r].
    cbn [fst snd] in Hp, Hg, Hgit. subst r.
    rewrite (run_prelude_ok _ _ _ _ _ _ _ Hp), create_then_upload_eq.
    cbv zeta. rewrite Hcreate, upload_results_eq, Hres. cbv zeta.
    match goal with
    | |- context [upload_files ?a ?b ?c ?f w ?h] =>
        destruct (upload_files_all_ok a b c f w Hup
                    (PathFacts.files_below_nonempty (Dir es)) h) as [Hok Hcalls];
        rewrite Hok
    end.
    cbn [fst snd]. split; [reflexivity|].
    rewrite upload_calls_app.
    rewrite (upload_calls_no_upload tg (before_create_no_upload _ Hg)).
    cbn [app upload_calls]. rewrite upload_calls_app.
    unfold summary_events. cbn [upload_calls]. rewrite app_nil_r. exact Hcalls.
Qed.

Lemma git_failure_uses_fallback_witness :
  Forall fallback_message (fst (run ∅ Examples.env_full Examples.w_nogit))
  /\ snd (run ∅ Examples.env_full Examples.w_nogit) = Ok tt
  /\ map path_or_fileobj
       (upload_calls (fst (run ∅ Examples.env_full Examples.w_nogit)))
     = ["results/a.txt"; "results/sub/b.txt"].
Proof.
  assert (Hgit : forall h,
            snd (get_current_git_commit Examples.w_nogit h) = Ok None)
    by reflexivity.
  destruct (git_failure_uses_fallback ∅ Examples.env_full Examples.w_nogit Hgit)
    as [Hmsg Hrun].
  split; [exact Hmsg|].
  exact (Hrun "hf_secret" "bob" _ eq_refl eq_refl
           (fun _ _ => eq_refl) (fun _ _ => eq_refl) eq_refl).
Defined.

(** ** [relpath] of a path below the working directory *)

Module RelpathFacts.

Import Posixpath.

Lemma append_cons x (a b : string) : String x a +:+ b = String x (a +:+ b).
Proof. reflexivity. Qed.

Lemma append_assoc (a b c : string) : (a +:+ b) +:+ c = a +:+ (b +:+ c).
Proof.
  induction a as [|x a IH]; [reflexivity|].
  rewrite !append_cons, IH. reflexivity.
Qed.

Lemma split_nonempty s : Str.split sep s <> [].
Proof.
  destruct s as [|c s]; cbn; [discriminate|].
  destruct (Ascii.eqb c sep); [discriminate|].
  destruct (Str.split sep s); discriminate.
Qed.

Lemma split_app_sep c q :
  Str.split sep (c +:+ String sep q) = Str.split sep c ++ Str.split sep q.
Proof.
  induction c as [|x c IH].
  - reflexivity.
  - rewrite append_cons. cbn [Str.split]. rewrite IH.
    destruct (Ascii.eqb x sep); [reflexivity|].
    pose proof (split_nonempty c) as Hne.
    destruct (Str.split sep c); [contradiction | reflexivity].
Qed.

Lemma endswith_sep_inv a :
  endswith_sep a = true -> exists a', a = a' +:+ String sep "".
Proof.
  induction a as [|x a IH]; [discriminate|].
  destruct a as [|y a].
  - cbn. intros H. apply Ascii.eqb_eq in H as ->. exists "". reflexivity.
  - intros H. destruct (IH H) as [a' Ha']. exists (String x a').
    rewrite append_cons, <- Ha'. reflexivity.
Qed.

(** Whatever the working directory, joining a relative path to it puts a
    fixed list of components in front of the components of the path. *)
Lemma join_split cwd :
  exists comps, forall q,
    isabs q = false ->
    Str.split sep (join cwd q) = comps ++ Str.split sep q.
Proof.
  unfold join. destruct (String.eqb_spec cwd "") as [->|Hne].
  - exists []. intros q ->. reflexivity.
  - cbn [orb]. destruct (endswith_sep cwd) eqn:Hend.
    + destruct (endswith_sep_inv _ Hend) as [a' ->].
      exists (Str.split sep a'). intros q ->.
      rewrite append_assoc. apply split_app_sep.
    + exists (Str.split sep cwd). intros q ->. apply split_app_sep.
Qed.

Lemma normpath_comps_acc acc comps :
  normpath_comps acc comps = rev (normpath_acc acc comps).
Proof.
  revert acc. induction comps as [|c comps IH]; intros acc; cbn; [reflexivity|].
  destruct (String.eqb c "" || String.eqb c ".")%bool; [apply IH|].
  destruct (String.eqb c ".."); apply IH.
Qed.

Lemma normpath_acc_app acc xs ys :
  normpath_acc acc (xs ++ ys) = normpath_acc (normpath_acc acc xs) ys.
Proof.
  revert acc. induction xs as [|c xs IH]; intros acc; cbn; [reflexivity|].
  destruct (String.eqb c "" || String.eqb c ".")%bool; [apply IH|].
  destruct (String.eqb c ".."); apply IH.
Qed.

Lemma normpath_acc_valid acc xs :
  Forall (fun x => valid_name x = true) xs ->
  normpath_acc acc xs = rev xs ++ acc.
Proof.
  intros Hxs. revert acc. induction Hxs as [|x xs Hx _ IH]; intros acc;
    [reflexivity|].
  cbn [normpath_acc rev]. unfold valid_name in Hx.
  destruct (String.eqb x ""); [discriminate|].
  destruct (String.eqb x "."); [discriminate|].
  destruct (String.eqb x ".."); [discriminate|].
  cbn [orb]. rewrite IH, <- app_assoc. reflexivity.
Qed.

Lemma commonprefix_len_app l xs :
  commonprefix_len l (l ++ xs) = length l.
Proof.
  induction l as [|x l IH]; cbn; [destruct xs; reflexivity|].
  rewrite String.eqb_refl, IH. reflexivity.
Qed.

Lemma valid_name_head x :
  valid_name x = true ->
  exists c x', x = String c x' /\ c <> sep /\ Str.contains "/" x' = false.
Proof.
  unfold valid_name. destruct x as [|c x']; [discriminate|].
  rewrite !andb_true_iff, !negb_true_iff. intros (_ & Hc).
  cbn [Str.contains String.prefix] in Hc.
  apply orb_false_iff in Hc as [Hp Hc].
  exists c, x'. repeat split; [|exact Hc].
  intros ->. unfold sep in Hp.
  destruct (Ascii.ascii_dec "/" "/") as [_|Hne]; [|contradiction].
  destruct x'; discriminate Hp.
Qed.

Lemma split_no_sep x :
  Str.contains "/" x = false -> Str.split sep x = [x].
Proof.
  induction x as [|c x IH]; [reflexivity|].
  cbn [Str.contains String.prefix]. intros H.
  apply orb_false_iff in H as [Hp Hc]. cbn [Str.split].
  destruct (Ascii.eqb_spec c sep) as [->|Hne].
  - exfalso. unfold sep in Hp.
    destruct (Ascii.ascii_dec "/" "/") as [_|Hne]; [|contradiction].
    destruct x; discriminate Hp.
  - rewrite (IH Hc). reflexivity.
Qed.

Lemma valid_name_no_sep x :
  valid_name x = true -> Str.contains "/" x = false.
Proof.
  unfold valid_name. rewrite !andb_true_iff, !negb_true_iff. tauto.
Qed.

Lemma join_cons x y ys :
  Str.join "/" (x :: y :: ys) = x +:+ String sep (Str.join "/" (y :: ys)).
Proof. reflexivity. Qed.

Lemma split_join xs :
  xs <> [] ->
  Forall (fun x => valid_name x = true) xs ->
  Str.split sep (Str.join "/" xs) = xs.
Proof.
  intros Hne Hxs. induction Hxs as [|x xs Hx Hxs IH]; [contradiction|].
  destruct xs as [|y ys].
  - cbn [Str.join]. apply split_no_sep, valid_name_no_sep, Hx.
  - rewrite join_cons, split_app_sep, IH by discriminate.
    rewrite (split_no_sep x) by (apply valid_name_no_sep, Hx). reflexivity.
Qed.

Lemma join_head xs x :
  valid_name x = true ->
  exists c s, Str.join "/" (x :: xs) = String c s /\ c <> sep.
Proof.
  intros Hx. destruct (valid_name_head x Hx) as (c & x' & -> & Hc & _).
  destruct xs as [|y ys]; [exists c, x'; auto|].
  rewrite join_cons, append_cons. eexists c, _. split; [reflexivity | exact Hc].
Qed.

Lemma isabs_head c s : c <> sep -> isabs (String c s) = false.
Proof.
  intros Hc. unfold isabs. cbn [String.prefix].
  destruct (Ascii.ascii_dec "/" c) as [<-|_]; [contradiction|reflexivity].
Qed.

(** A path made of valid names is its own path relative to the working
    directory, wherever that is. *)
Lemma relpath_valid cwd xs :
  xs <> [] ->
  Forall (fun x => valid_name x = true) xs ->
  relpath cwd (Str.join "/" xs) "." = Ok (Str.join "/" xs).
Proof.
  intros Hne Hxs. unfold relpath, abspath_list.
  destruct xs as [|x xs']; [contradiction|].
  destruct (join_head xs' x) as (c & s & Hj & Hc).
  { apply Forall_cons in Hxs as [Hx _]. exact Hx. }
  destruct (join_split cwd) as [comps Hsplit].
  rewrite (Hsplit "." eq_refl).
  rewrite (Hsplit (Str.join "/" (x :: xs'))) by (rewrite Hj; apply isabs_head, Hc).
  rewrite (split_join (x :: xs') Hne Hxs).
  rewrite Hj at 1. cbn [String.eqb]. cbv zeta.
  rewrite !normpath_comps_acc, !normpath_acc_app.
  rewrite (normpath_acc_valid _ (x :: xs') Hxs).
  change (normpath_acc (normpath_acc [] comps) (Str.split sep "."))
    with (normpath_acc [] comps).
  rewrite rev_app_distr, rev_involutive, commonprefix_len_app.
  rewrite Nat.sub_diag, drop_app_length. reflexivity.
Qed.

End RelpathFacts.

(** ** What a completed run uploaded *)

Lemma run_ok_inv d env w :
  snd (run d env w) = Ok tt ->
  exists tok rid cid es h,
    Pathlib.resolve (Dir (cwd_entries w)) results_dir = Some (Dir es)
    /\ snd (upload_files tok rid (commit_prefix_of cid)
              (files_below (Pathlib.glob_rec_all results_dir (Dir es))) w h)
       = Ok tt
    /\ upload_calls (fst (run d env w))
       = upload_calls
           (fst (upload_files tok rid (commit_prefix_of cid)
                   (files_below (Pathlib.glob_rec_all results_dir (Dir es))) w h)).
Proof.
  pose proof (prelude_before_create d env w []) as Hpre.
  destruct (prelude d env w []) as [t [[[tok rid] cid]|e0]] eqn:Hp;
    cbn [fst] in Hpre.
  2:{ rewrite (run_prelude_raise _ _ _ _ _ Hp). discriminate. }
  rewrite (run_prelude_ok _ _ _ _ _ _ _ Hp), create_then_upload_eq.
  cbv zeta.
  assert (Hgo : forall line ev,
    snd (upload_results tok rid cid w
           ((t ++ [Printed (checking_line rid)])
            ++ [CreateRepo (mkCreate rid "dataset" false tok) ev; Printed line]))
      = Ok tt ->
    exists es h,
      Pathlib.resolve (Dir (cwd_entries w)) results_dir = Some (Dir es)
      /\ snd (upload_files tok rid (commit_prefix_of cid)
                (files_below (Pathlib.glob_rec_all results_dir (Dir es))) w h)
         = Ok tt
      /\ upload_calls
           (t ++ Printed (checking_line rid)
              :: CreateRepo (mkCreate rid "dataset" false tok) ev
              :: Printed line
              :: fst (upload_results tok rid cid w
                        ((t ++ [Printed (checking_line rid)])
                         ++ [CreateRepo (mkCreate rid "dataset" false tok) ev;
                             Printed line])))
         = upload_calls
             (fst (upload_files tok rid (commit_prefix_of cid)
                     (files_below (Pathlib.glob_rec_all results_dir (Dir es)))
                     w h))).
  { intros line ev. rewrite upload_results_eq.
    destruct (Pathlib.resolve (Dir (cwd_entries w)) results_dir)
      as [[|es| |lnk]|]; try discriminate.
    cbv zeta.
    match goal with
    | |- context [upload_files ?a ?b ?c ?f w ?h] =>
        destruct (upload_files a b c f w h) as [tl [[]|e]] eqn:Hl
    end; cbn [fst snd]; [intros _ | discriminate].
    eexists es, _. split; [reflexivity|]. rewrite Hl. cbn [fst snd].
    split; [reflexivity|].
    rewrite upload_calls_app,
      (upload_calls_no_upload t (before_create_no_upload _ Hpre)).
    cbn [app upload_calls]. rewrite upload_calls_app.
    unfold summary_events. destruct cid as [[|c s]|]; cbn [upload_calls];
      apply app_nil_r. }
  destruct (hub_create_repo w _ _) as [[]|e].
  - cbn [fst snd]. intros H. destruct (Hgo _ _ H) as (es & h & ?).
    exists tok, rid, cid, es, h. assumption.
  - destruct (Str.contains "You already created this" (exn_str e)
              || Str.contains "409" (exn_str e))%bool; [|discriminate].
    cbn [fst snd]. intros H. destruct (Hgo _ _ H) as (es & h & ?).
    exists tok, rid, cid, es, h. assumption.
Qed.

(** C3, as amended.  With exactly [a.txt] and [sub/b.txt] below
    [results], a run that completes made exactly two upload calls, one per
    file, and the remote path of each is its path relative to the working
    directory: [results/a.txt] and [results/sub/b.txt]. *)
Theorem results_tree_uploads d env w :
  Pathlib.resolve (Dir (cwd_entries w)) results_dir
    = Some (Dir [("a.txt", File); ("sub", Dir [("b.txt", File)])]) ->
  snd (run d env w) = Ok tt ->
  map path_in_repo (upload_calls (fst (run d env w)))
    = ["results/a.txt"; "results/sub/b.txt"]
  /\ map path_or_fileobj (upload_calls (fst (run d env w)))
    = ["results/a.txt"; "results/sub/b.txt"].
Proof.
  intros Hres Hok.
  destruct (run_ok_inv d env w Hok) as (tok & rid & cid & es & h & Hres' & Hl & ->).
  rewrite Hres in Hres'. injection Hres' as <-.
  apply upload_files_ok_inv in Hl.
  change (files_below _) with ["results/a.txt"; "results/sub/b.txt"] in Hl.
  assert (Ha : Posixpath.relpath (cwd w) "results/a.txt" "."
               = Ok "results/a.txt").
  { apply (RelpathFacts.relpath_valid (cwd w) ["results"; "a.txt"]);
      [discriminate | repeat constructor]. }
  assert (Hb : Posixpath.relpath (cwd w) "results/sub/b.txt" "."
               = Ok "results/sub/b.txt").
  { apply (RelpathFacts.relpath_valid (cwd w) ["results"; "sub"; "b.txt"]);
      [discriminate | repeat constructor]. }
  remember (upload_calls _) as calls eqn:Hcalls in Hl |- *. clear Hcalls.
  inversion Hl as [|f1 a1 l1 k1 [Hf1 Hr1] Hl1]; subst.
  inversion Hl1 as [|f2 a2 l2 k2 [Hf2 Hr2] Hl2]; subst.
  inversion Hl2; subst. cbn [map].
  rewrite Ha in Hr1. rewrite Hb in Hr2.
  injection Hr1 as <-. injection Hr2 as <-. rewrite Hf1, Hf2.
  split; reflexivity.
Qed.

Lemma results_tree_uploads_witness :
  map path_in_repo
    (upload_calls (fst (run ∅ Examples.env_full Examples.w_ok)))
  = ["results/a.txt"; "results/sub/b.txt"].
Proof.
  exact (proj1 (results_tree_uploads ∅ Examples.env_full Examples.w_ok
                  eq_refl eq_refl)).
Defined.

(** C3 as stated fails: the remote paths keep the [results/] prefix, so
    [a.txt] is not among them. *)
Lemma upload_set_counterexample :
  ~ (forall p,
        In p (map path_in_repo
                (upload_calls (fst (run ∅ Examples.env_full Examples.w_ok))))
        <-> In p ["a.txt"; "sub/b.txt"]).
Proof.
  intros H. destruct (H "a.txt") as [_ H2].
  specialize (H2 (or_introl eq_refl)). vm_compute in H2.
  destruct H2 as [H2|[H2|[]]]; discriminate H2.
Qed.


(** * Further properties of the run *)

(** ** The shape of a run *)

Lemma filter_phase_nil (P : event -> Prop) (f : event -> bool) t :
  (forall e, P e -> f e = false) -> Forall P t -> List.filter f t = [].
Proof.
  intros HPf. induction 1 as [|e t He _ IH]; [reflexivity|].
  cbn. rewrite (HPf e He). exact IH.
Qed.

Lemma username_step_cases (m : environ) tok w h tu r :
  match getenv m "HF_USERNAME" with
  | Some (String c u) => ret (String c u)
  | _ => retrieve_username tok
  end w h = (tu, r) ->
  Forall identity_phase tu /\ Forall (uses_token tok) tu
  /\ length (List.filter is_whoami tu) <= 1
  /\ match r with
     | Ok _ => True
     | Raise e =>
         e = username_error
         /\ nonempty_value (getenv m "HF_USERNAME") = None
         /\ exists line,
              tu = [Printed username_prompt;
                    Whoami tok (hub_whoami w (h ++ [Printed username_prompt]) tok);
                    Printed line]
     end.
Proof.
  assert (Hret : forall tu' r',
    retrieve_username tok w h = (tu', r') ->
    Forall identity_phase tu' /\ Forall (uses_token tok) tu'
    /\ length (List.filter is_whoami tu') <= 1
    /\ match r' with
       | Ok _ => True
       | Raise e =>
           e = username_error
           /\ exists line,
                tu' = [Printed username_prompt;
                       Whoami tok (hub_whoami w (h ++ [Printed username_prompt]) tok);
                       Printed line]
       end).
  { intros tu' r'. rewrite retrieve_username_eq. cbv zeta.
    destruct (hub_whoami w (h ++ [Printed username_prompt]) tok) as [info|e];
      [destruct (info !! "name") as [[|c u]|]|];
      intros H; injection H as <- <-;
      (split; [repeat constructor|]);
      (split; [repeat constructor|]);
      (split; [cbn; lia|]); eauto. }
  destruct (getenv m "HF_USERNAME") as [[|c u]|]; cbn [nonempty_value].
  - intros H. destruct (Hret _ _ H) as (? & ? & ? & Hr).
    repeat split; try assumption. destruct r; [exact I|]. tauto.
  - intros H. injection H as <- <-. repeat split; try constructor. cbn. lia.
  - intros H. destruct (Hret _ _ H) as (? & ? & ? & Hr).
    repeat split; try assumption. destruct r; [exact I|]. tauto.
Qed.

Lemma prelude_split d env w h :
  exists tu,
    Forall identity_phase tu
    /\ length (List.filter is_whoami tu) <= 1
    /\ ((nonempty_value (getenv (load_dotenv d env) "HF_TOKEN") = None
         /\ tu = [] /\ prelude d env w h = ([], Raise token_error))
        \/ exists tok,
             nonempty_value (getenv (load_dotenv d env) "HF_TOKEN") = Some tok
             /\ Forall (uses_token tok) tu
             /\ ((nonempty_value (getenv (load_dotenv d env) "HF_USERNAME") = None
                  /\ (exists line,
                        tu = [Printed username_prompt;
                              Whoami tok
                                (hub_whoami w (h ++ [Printed username_prompt]) tok);
                              Printed line])
                  /\ prelude d env w h = (tu, Raise username_error))
                 \/ exists account,
                      prelude d env w h =
                      (tu ++ fst (get_current_git_commit w (h ++ tu)),
                       match snd (get_current_git_commit w (h ++ tu)) with
                       | Ok cid =>
                           Ok (tok,
                               account +:+ "/" +:+
                                 getenv_default (load_dotenv d env)
                                   "HF_REPO_NAME" "longbench-results",
                               cid)
                       | Raise e => Raise e
                       end))).
Proof.
  unfold prelude. cbv zeta. generalize (load_dotenv d env). intros m.
  destruct (getenv m "HF_TOKEN") as [[|c t]|] eqn:Htok; cbn [nonempty_value].
  1,3: exists []; split; [constructor|]; split; [cbn; lia|]; left;
       rewrite bind_eq; cbn; auto.
  rewrite bind_ret_l.
  destruct (match getenv m "HF_USERNAME" with
            | Some (String c0 u) => ret (String c0 u)
            | _ => retrieve_username (String c t)
            end w h) as [tu r] eqn:Hstep.
  destruct (username_step_cases m (String c t) w h tu r Hstep)
    as (Hph & Huse & Hcnt & Hr).
  exists tu. split; [exact Hph|]. split; [exact Hcnt|].
  right. exists (String c t). split; [reflexivity|]. split; [exact Huse|].
  rewrite bind_eq, Hstep. destruct r as [account|e].
  - right. exists account. rewrite bind_eq.
    destruct (get_current_git_commit w (h ++ tu)) as [tg [cid|e]]; cbn;
      rewrite ?app_nil_r; reflexivity.
  - left. destruct Hr as (-> & Hnone & Hline). auto.
Qed.

Lemma run_cases d env w :
  exists tu,
    Forall identity_phase tu
    /\ length (List.filter is_whoami tu) <= 1
    /\ ((nonempty_value (getenv (load_dotenv d env) "HF_TOKEN") = None
         /\ run d env w = ([], Raise token_error))
        \/ exists tok,
             nonempty_value (getenv (load_dotenv d env) "HF_TOKEN") = Some tok
             /\ Forall (uses_token tok) tu
             /\ ((nonempty_value (getenv (load_dotenv d env) "HF_USERNAME") = None
                  /\ (exists line,
                        tu = [Printed username_prompt;
                              Whoami tok (hub_whoami w [Printed username_prompt] tok);
                              Printed line])
                  /\ run d env w = (tu, Raise username_error))
                 \/ exists account tg,
                      let rid :=
                        account +:+ "/" +:+
                          getenv_default (load_dotenv d env)
                            "HF_REPO_NAME" "longbench-results" in
                      (exists e,
                          get_current_git_commit w tu = (tg, Raise e)
                          /\ run d env w = (tu ++ tg, Raise e))
                      \/ (exists cid,
                            get_current_git_commit w tu = (tg, Ok cid)
                            /\ run d env w =
                               (tu ++ tg ++
                                  fst ((create_or_continue rid tok >>
                                        upload_results tok rid cid) w (tu ++ tg)),
                                snd ((create_or_continue rid tok >>
                                      upload_results tok rid cid) w (tu ++ tg)))))).
Proof.
  destruct (prelude_split d env w []) as (tu & Hph & Hcnt & Hcases).
  exists tu. split; [exact Hph|]. split; [exact Hcnt|].
  cbn [app] in Hcases.
  destruct Hcases as [(Hnone & _ & Hp) | (tok & Htok & Huse & Hcases)].
  - left. split; [exact Hnone|]. apply run_prelude_raise. exact Hp.
  - right. exists tok. split; [exact Htok|]. split; [exact Huse|].
    destruct Hcases as [(Hnone & Hline & Hp) | (account & Hp)].
    + left. split; [exact Hnone|]. split; [exact Hline|].
      apply run_prelude_raise. exact Hp.
    + right. destruct (get_current_git_commit w tu) as [tg [cid|e]] eqn:Hg;
        cbn [fst snd] in Hp; exists account, tg; cbv zeta.
      * right. exists cid. split; [reflexivity|].
        rewrite (run_prelude_ok _ _ _ _ _ _ _ Hp), <- app_assoc. reflexivity.
      * left. exists e. split; [reflexivity|].
        apply run_prelude_raise. exact Hp.
Qed.

Lemma git_git_phase : emits git_phase get_current_git_commit.
Proof. unfold get_current_git_commit. emits_auto. Qed.

Lemma create_create_phase rid tok : emits create_phase (create_or_continue rid tok).
Proof. unfold create_or_continue. emits_auto. Qed.

Lemma upload_files_upload_phase tok rid pfx files :
  emits upload_phase (upload_files tok rid pfx files).
Proof. apply emits_upload_files; intros; exact I. Qed.

Lemma upload_results_upload_phase tok rid cid :
  emits upload_phase (upload_results tok rid cid).
Proof.
  unfold upload_results. cbv zeta. emits_walk;
    try apply upload_files_upload_phase; exact I.
Qed.

(** What follows the lookup of the revision: the creation call, then
    either nothing more, or the missing directory, or the loop. *)
Lemma create_upload_cases rid tok cid w h :
  exists line,
    let a := mkCreate rid "dataset" false tok in
    let r0 := hub_create_repo w (h ++ [Printed (checking_line rid)]) a in
    let head := [Printed (checking_line rid); CreateRepo a r0; Printed line] in
    let K := (create_or_continue rid tok >> upload_results tok rid cid) w h in
    String.prefix "Upload complete!" line = false
    /\ ((exists e, r0 = Raise e /\ ~ already_exists e /\ K = (head, Raise e))
        \/ (creation_passed r0
            /\ (((forall es,
                     Pathlib.resolve (Dir (cwd_entries w)) results_dir
                     <> Some (Dir es))
                 /\ K = (head, Raise results_error))
                \/ exists es,
                     Pathlib.resolve (Dir (cwd_entries w)) results_dir
                     = Some (Dir es)
                     /\ let L :=
                          upload_files tok rid (commit_prefix_of cid)
                            (files_below (Pathlib.glob_rec_all results_dir (Dir es)))
                            w ((h ++ head) ++ [Printed (uploading_line rid)]) in
                        K = match snd L with
                            | Ok _ =>
                                (head ++ Printed (uploading_line rid)
                                   :: fst L ++ summary_events rid cid, Ok tt)
                            | Raise e =>
                                (head ++ Printed (uploading_line rid) :: fst L,
                                 Raise e)
                            end))).
Proof.
  assert (Hgo : forall line r0,
    let a := mkCreate rid "dataset" false tok in
    let head := [Printed (checking_line rid); CreateRepo a r0; Printed line] in
    let U := upload_results tok rid cid w
               ((h ++ [Printed (checking_line rid)])
                ++ [CreateRepo a r0; Printed line]) in
    ((forall es,
         Pathlib.resolve (Dir (cwd_entries w)) results_dir <> Some (Dir es))
     /\ (Printed (checking_line rid) :: CreateRepo a r0 :: Printed line :: fst U,
         snd U) = (head, Raise results_error))
    \/ exists es,
         Pathlib.resolve (Dir (cwd_entries w)) results_dir = Some (Dir es)
         /\ let L :=
              upload_files tok rid (commit_prefix_of cid)
                (files_below (Pathlib.glob_rec_all results_dir (Dir es)))
                w ((h ++ head) ++ [Printed (uploading_line rid)]) in
            (Printed (checking_line rid) :: CreateRepo a r0 :: Printed line :: fst U,
             snd U)
            = match snd L with
              | Ok _ =>
                  (head ++ Printed (uploading_line rid)
                     :: fst L ++ summary_events rid cid, Ok tt)
              | Raise e =>
                  (head ++ Printed (uploading_line rid) :: fst L, Raise e)
              end).
  { intros line r0. cbv zeta. rewrite upload_results_eq.
    rewrite <- (app_assoc h [Printed (checking_line rid)]). cbn [app].
    destruct (Pathlib.resolve (Dir (cwd_entries w)) results_dir)
      as [[|es| |t]|] eqn:Hres.
    1,3,4,5: left; split; [intros es; discriminate | reflexivity].
    right. exists es. split; [reflexivity|]. cbv zeta.
    destruct (snd (upload_files _ _ _ _ _ _)) as [[]|e]; reflexivity. }
  rewrite create_then_upload_eq. cbv zeta.
  destruct (hub_create_repo w (h ++ [Printed (checking_line rid)])
              (mkCreate rid "dataset" false tok)) as [[]|e] eqn:Hr.
  - exists "Repository created successfully". split; [reflexivity|].
    right. split; [exact I|]. apply Hgo.
  - destruct (Str.contains "You already created this" (exn_str e)
              || Str.contains "409" (exn_str e))%bool eqn:Hc.
    + exists "Repository already exists, continuing with upload...".
      split; [reflexivity|]. right.
      split; [apply already_exists_spec; exact Hc|]. apply Hgo.
    + exists ("Error while creating repository: " +:+ exn_str e).
      split; [reflexivity|]. left. exists e. split; [reflexivity|].
      split; [|reflexivity].
      intros He. apply already_exists_spec in He. congruence.
Qed.

(** X1.  When [HF_USERNAME] is unset or empty and the identity lookup
    raises, or answers without a usable name, the run ends with the
    [ValueError] that asks for [HF_USERNAME]: one lookup was made, its own
    error is only printed, and neither git, nor the creation, nor any
    upload was tried. *)
Theorem identity_lookup_failure_aborts d env w tok :
  nonempty_value (getenv (load_dotenv d env) "HF_TOKEN") = Some tok ->
  nonempty_value (getenv (load_dotenv d env) "HF_USERNAME") = None ->
  match hub_whoami w [Printed username_prompt] tok with
  | Ok info => nonempty_value (info !! "name") = None
  | Raise _ => True
  end ->
  exists line,
    run d env w
    = ([Printed username_prompt;
        Whoami tok (hub_whoami w [Printed username_prompt] tok);
        Printed line],
       Raise username_error).
Proof.
  intros Htok Huser Hwho. unfold run, upload_to_huggingface. cbv zeta.
  destruct (getenv (load_dotenv d env) "HF_TOKEN") as [[|c t]|];
    cbn in Htok; try discriminate Htok.
  injection Htok as <-. rewrite bind_ret_l, bind_eq.
  assert (Hstep :
    match getenv (load_dotenv d env) "HF_USERNAME" with
    | Some (String c0 u) => ret (String c0 u)
    | _ => retrieve_username (String c t)
    end = retrieve_username (String c t)).
  { destruct (getenv (load_dotenv d env) "HF_USERNAME") as [[|c0 u]|];
      [reflexivity | discriminate Huser | reflexivity]. }
  rewrite Hstep, retrieve_username_eq. cbv zeta. cbn [app].
  destruct (hub_whoami w [Printed username_prompt] (String c t)) as [info|e].
  - destruct (info !! "name") as [[|c0 u]|]; cbn in Hwho;
      try discriminate Hwho; eauto.
  - eauto.
Qed.

Lemma identity_lookup_failure_aborts_witness :
  exists line,
    run ∅ Examples.env_token Examples.w_unauthorized
    = ([Printed username_prompt;
        Whoami "hf_secret"
          (hub_whoami Examples.w_unauthorized [Printed username_prompt] "hf_secret");
        Printed line],
       Raise username_error).
Proof.
  exact (identity_lookup_failure_aborts ∅ Examples.env_token
           Examples.w_unauthorized "hf_secret" eq_refl eq_refl I).
Defined.

(** ** The revision lookup inside the run *)

Lemma git_cases w h tg r :
  get_current_git_commit w h = (tg, r) ->
  (exists out,
      subprocess_run w h argv_git = Ok out
      /\ tg = [SubprocessRun argv_git (Ok out)]
      /\ r = Ok (Some (Str.strip out)))
  \/ (exists e line,
         subprocess_run w h argv_git = Raise e
         /\ (is_CalledProcessError e || is_FileNotFoundError e)%bool = true
         /\ tg = [SubprocessRun argv_git (Raise e); Printed line]
         /\ String.prefix "Upload complete!" line = false
         /\ r = Ok None)
  \/ (exists e,
         subprocess_run w h argv_git = Raise e
         /\ (is_CalledProcessError e || is_FileNotFoundError e)%bool = false
         /\ tg = [SubprocessRun argv_git (Raise e)]
         /\ r = Raise e).
Proof.
  rewrite get_current_git_commit_eq. cbv zeta.
  destruct (subprocess_run w h argv_git) as [out|e].
  - intros H. injection H as <- <-. left. eauto.
  - destruct (is_CalledProcessError e) eqn:Hc; cbn [orb].
    + intros H. injection H as <- <-. right. left.
      exists e, ("Error getting git commit ID: " +:+ exn_str e).
      rewrite Hc. repeat split; reflexivity.
    + destruct (is_FileNotFoundError e) eqn:Hf.
      * intros H. injection H as <- <-. right. left.
        exists e, "Git command not found. Make sure git is installed.".
        rewrite Hc, Hf. repeat split; reflexivity.
      * intros H. injection H as <- <-. right. right. exists e.
        rewrite Hc, Hf. auto.
Qed.

Lemma late_phase tok rid cid w h :
  Forall (fun e => create_phase e \/ upload_phase e)
    (fst ((create_or_continue rid tok >> upload_results tok rid cid) w h)).
Proof.
  revert w h.
  apply (emits_bind (fun e => create_phase e \/ upload_phase e)).
  - eapply emits_impl; [|apply create_create_phase]. auto.
  - intros _. eapply emits_impl; [|apply upload_results_upload_phase]. auto.
Qed.

(** X2.  An exception of the git subprocess that [get_current_git_commit]
    does not catch ends the whole run with that exception, before the
    repository is created and before anything is uploaded. *)
Theorem git_exception_aborts d env w e :
  In (SubprocessRun argv_git (Raise e)) (fst (run d env w)) ->
  (is_CalledProcessError e || is_FileNotFoundError e)%bool = false ->
  snd (run d env w) = Raise e
  /\ Forall (fun ev => is_create ev = false /\ is_upload ev = false)
       (fst (run d env w)).
Proof.
  intros Hin Hun.
  assert (Hid : forall t, Forall identity_phase t ->
            ~ In (SubprocessRun argv_git (Raise e)) t).
  { intros t Ht Hi. rewrite List.Forall_forall in Ht. exact (Ht _ Hi). }
  assert (Hquiet : forall t, Forall identity_phase t ->
            Forall (fun ev => is_create ev = false /\ is_upload ev = false) t).
  { intros t Ht. eapply Forall_impl; [exact Ht|]. intros []; cbn; tauto. }
  destruct (run_cases d env w) as (tu & Hph & _ & Hcases).
  destruct Hcases as [(_ & Hrun) | (tok & _ & _ & Hcases)].
  { rewrite Hrun in Hin. destruct Hin. }
  destruct Hcases as [(_ & _ & Hrun) | (account & tg & Hcases)].
  { rewrite Hrun in Hin. cbn [fst] in Hin. destruct (Hid _ Hph Hin). }
  cbv zeta in Hcases.
  destruct Hcases as [(e0 & Hg & Hrun) | (cid & Hg & Hrun)];
    rewrite Hrun in Hin |- *; cbn [fst snd] in Hin |- *;
    apply in_app_or in Hin as [Hin | Hin]; try (destruct (Hid _ Hph Hin)).
  - destruct (git_cases _ _ _ _ Hg)
      as [(out & _ & _ & Hr) | [(e1 & l & _ & _ & _ & _ & Hr)
                               | (e1 & _ & _ & -> & Hr)]];
      try discriminate Hr.
    injection Hr as ->. destruct Hin as [Hin | []]. injection Hin as ->.
    split; [reflexivity|]. apply Forall_app. split; [apply Hquiet, Hph|].
    repeat constructor.
  - exfalso. apply in_app_or in Hin as [Hin | Hin].
    + destruct (git_cases _ _ _ _ Hg)
        as [(out & _ & -> & _) | [(e1 & l & _ & Hc & -> & _)
                                 | (e1 & _ & _ & _ & Hr)]];
        try discriminate Hr.
      * destruct Hin as [Hin | []]. discriminate Hin.
      * destruct Hin as [Hin | [Hin | []]]; [|discriminate Hin].
        injection Hin as ->. congruence.
    + pose proof (late_phase tok
                    (account +:+ "/" +:+
                     getenv_default (load_dotenv d env) "HF_REPO_NAME"
                       "longbench-results") cid w (tu ++ tg)) as Hl.
      rewrite List.Forall_forall in Hl. destruct (Hl _ Hin) as [[] | []].
Qed.

Lemma git_exception_aborts_witness :
  snd (run ∅ Examples.env_full Examples.w_permission)
  = Raise Examples.permission_denied
  /\ Forall (fun ev => is_create ev = false /\ is_upload ev = false)
       (fst (run ∅ Examples.env_full Examples.w_permission)).
Proof.
  apply git_exception_aborts; [left; reflexivity | reflexivity].
Defined.

Module StripFacts.

Lemma lstrip_idem s : Str.lstrip (Str.lstrip s) = Str.lstrip s.
Proof.
  functional induction (Str.lstrip s); try assumption; try reflexivity.
  - rewrite Str.lstrip_equation, e0. reflexivity.
  - rewrite Str.lstrip_equation, e0, e2. reflexivity.
  - rewrite Str.lstrip_equation, e0, e2, e4. reflexivity.
Qed.

(** [rstrip_cons] removes everything or nothing. *)
Lemma rstrip_cons_cases c r :
  Str.rstrip_cons c r = "" \/ Str.rstrip_cons c r = String c r.
Proof.
  unfold Str.rstrip_cons.
  destruct r as [|c2 [|c3 [|c4 r]]]; auto;
    match goal with |- context [if ?b then _ else _] => destruct b end; auto.
Qed.

Lemma rstrip_idem s : Str.rstrip (Str.rstrip s) = Str.rstrip s.
Proof.
  induction s as [|c s IH]; [reflexivity|]. cbn [Str.rstrip].
  destruct (rstrip_cons_cases c (Str.rstrip s)) as [H | H]; rewrite H.
  - reflexivity.
  - cbn [Str.rstrip]. rewrite IH. exact H.
Qed.

(** A string without trailing whitespace keeps none when characters are
    taken off its front. *)
Lemma rstrip_fixed_tail c s :
  Str.rstrip (String c s) = String c s -> Str.rstrip s = s.
Proof.
  cbn [Str.rstrip].
  destruct (rstrip_cons_cases c (Str.rstrip s)) as [H | H]; rewrite H.
  - discriminate.
  - intros Heq. injection Heq as Heq. exact Heq.
Qed.

Lemma rstrip_lstrip_fixed s :
  Str.rstrip s = s -> Str.rstrip (Str.lstrip s) = Str.lstrip s.
Proof.
  functional induction (Str.lstrip s); intros H; try exact H.
  - apply IHs0. exact (rstrip_fixed_tail _ _ H).
  - apply IHs0. exact (rstrip_fixed_tail _ _ (rstrip_fixed_tail _ _ H)).
  - apply IHs0.
    exact (rstrip_fixed_tail _ _
             (rstrip_fixed_tail _ _ (rstrip_fixed_tail _ _ H))).
Qed.

Lemma strip_idem s : Str.strip (Str.strip s) = Str.strip s.
Proof.
  unfold Str.strip.
  rewrite (rstrip_lstrip_fixed (Str.rstrip s) (rstrip_idem s)).
  apply lstrip_idem.
Qed.

End StripFacts.

(** X3.  The identifier [get_current_git_commit] returns has no
    whitespace around it and comes from a subprocess that succeeded, with
    nothing printed; [None] is returned exactly when the subprocess failed
    and one diagnostic line was printed.  One subprocess call is made in
    every case. *)
Theorem git_commit_result w h :
  (forall id,
      snd (get_current_git_commit w h) = Ok (Some id) ->
      Str.strip id = id
      /\ exists out, fst (get_current_git_commit w h)
                     = [SubprocessRun argv_git (Ok out)])
  /\ (snd (get_current_git_commit w h) = Ok None <->
      exists e line,
        fst (get_current_git_commit w h)
        = [SubprocessRun argv_git (Raise e); Printed line])
  /\ length (List.filter is_subprocess (fst (get_current_git_commit w h))) = 1.
Proof.
  destruct (get_current_git_commit w h) as [tg r] eqn:Hg. cbn [fst snd].
  destruct (git_cases _ _ _ _ Hg)
    as [(out & _ & -> & ->) | [(e1 & l & _ & _ & -> & _ & ->)
                              | (e1 & _ & _ & -> & ->)]].
  - split; [|split; [|reflexivity]].
    + intros id H. injection H as <-. split; [apply StripFacts.strip_idem|].
      eauto.
    + split; [discriminate|]. intros (e & line & H). discriminate H.
  - split; [|split; [|reflexivity]].
    + intros id H. discriminate H.
    + split; [eauto | reflexivity].
  - split; [|split; [|reflexivity]].
    + intros id H. discriminate H.
    + split; [discriminate|]. intros (e & line & H). discriminate H.
Qed.

(** ** Every run has one of seven forms *)

Lemma run_form_holds d env w : run_form d env w (run d env w).
Proof.
  destruct (run_cases d env w) as (tu & Hph & Hcnt & Hcases).
  destruct Hcases as [(Hnone & ->) | (tok & Htok & Huse & Hcases)].
  { constructor. exact Hnone. }
  destruct Hcases as [(Hnone & (line & ->) & ->) | (account & tg & Hcases)].
  { constructor; [exact Htok | exact Hnone|].
    apply Forall_cons in Hph as [_ Hph]. apply Forall_cons in Hph as [_ Hph].
    apply Forall_cons in Hph as [Hph _]. exact Hph. }
  assert (Hid : identity_done d env tok tu) by (repeat split; assumption).
  cbv zeta in Hcases.
  destruct Hcases as [(e0 & Hg & ->) | (cid & Hg & ->)].
  { eapply form_git_raised; eassumption. }
  match goal with
  | |- context [create_or_continue ?rid tok] =>
      destruct (create_upload_cases rid tok cid w (tu ++ tg))
        as (line & Hcases); cbv zeta in Hcases;
      destruct Hcases as (Hsum & Hcases)
  end.
  destruct Hcases as [(e1 & Hr0 & Hnot & ->) | (Hpass & Hcases)].
  { cbn [fst snd]. rewrite Hr0.
    eapply form_create_refused; eassumption. }
  destruct Hcases as [(Hnores & ->) | (es & Hres & ->)].
  { cbn [fst snd]. eapply form_no_results; eassumption. }
  match goal with
  | |- context [upload_files ?a ?b ?c ?f w ?h] =>
      destruct (upload_files a b c f w h) as [tl [[]|e]] eqn:Hl
  end; cbn [fst snd].
  - eapply form_completed; eassumption.
  - eapply form_upload_failed; eassumption.
Qed.

Ltac run_form_cases H :=
  destruct H as
    [ Hnone
    | tok line Htok Hnone Hsum
    | tok tu tg e Hid Hg
    | tok tu tg cid rid line e Hid Hg Hsum Hnot
    | tok tu tg cid rid line r0 Hid Hg Hsum Hpass Hnores
    | tok tu tg cid rid line r0 es h tl e Hid Hg Hsum Hpass Hres Hl
    | tok tu tg cid rid line r0 es h tl Hid Hg Hsum Hpass Hres Hl ].

Lemma git_phase_count w h tg r :
  get_current_git_commit w h = (tg, r) ->
  Forall git_phase tg /\ length (List.filter is_subprocess tg) <= 1.
Proof.
  intros Hg. split.
  - pose proof (git_git_phase w h) as H. rewrite Hg in H. exact H.
  - destruct (git_cases _ _ _ _ Hg)
      as [(out & _ & -> & _) | [(e1 & l & _ & _ & -> & _)
                               | (e1 & _ & _ & -> & _)]]; cbn; lia.
Qed.

Lemma creation_head_phase rid tok r0 line :
  String.prefix "Upload complete!" line = false ->
  Forall create_phase (creation_head rid tok r0 line).
Proof. intros H. repeat constructor. exact H. Qed.

Lemma loop_upload_phase tok rid pfx files w h tl r :
  upload_files tok rid pfx files w h = (tl, r) -> Forall upload_phase tl.
Proof.
  intros Hl. pose proof (upload_files_upload_phase tok rid pfx files w h) as H.
  rewrite Hl in H. exact H.
Qed.

Lemma summary_events_phase rid cid : Forall upload_phase (summary_events rid cid).
Proof.
  unfold summary_events. destruct cid as [[|c s]|]; repeat constructor.
Qed.

Lemma calls_in_order_form d env w p :
  run_form d env w p ->
  exists tu tg tc tup,
    fst p = tu ++ tg ++ tc ++ tup
    /\ Forall identity_phase tu /\ Forall git_phase tg
    /\ Forall create_phase tc /\ Forall upload_phase tup
    /\ length (List.filter is_whoami tu) <= 1
    /\ length (List.filter is_subprocess tg) <= 1
    /\ length (List.filter is_create tc) <= 1.
Proof.
  intros Hf. run_form_cases Hf; cbn [fst];
    try (destruct Hid as (_ & Hph & _ & Hcnt);
         destruct (git_phase_count _ _ _ _ Hg) as [Hgp Hgc]).
  - exists [], [], [], []. repeat split; try constructor; cbn; lia.
  - eexists _, [], [], []. rewrite !app_nil_r.
    split; [reflexivity|]. split; [repeat constructor; exact Hsum|].
    repeat split; try constructor; cbn; lia.
  - exists tu, tg, [], []. rewrite !app_nil_r.
    split; [reflexivity|]. split; [exact Hph|]. split; [exact Hgp|].
    split; [constructor|]. split; [constructor|].
    split; [exact Hcnt|]. split; [exact Hgc|]. cbn. lia.
  - exists tu, tg, (creation_head rid tok (Raise e) line), [].
    rewrite !app_nil_r.
    split; [reflexivity|]. split; [exact Hph|]. split; [exact Hgp|].
    split; [apply creation_head_phase; exact Hsum|]. split; [constructor|].
    split; [exact Hcnt|]. split; [exact Hgc|]. cbn. lia.
  - exists tu, tg, (creation_head rid tok r0 line), [].
    rewrite !app_nil_r.
    split; [reflexivity|]. split; [exact Hph|]. split; [exact Hgp|].
    split; [apply creation_head_phase; exact Hsum|]. split; [constructor|].
    split; [exact Hcnt|]. split; [exact Hgc|]. cbn. lia.
  - exists tu, tg, (creation_head rid tok r0 line),
      (Printed (uploading_line rid) :: tl).
    split; [reflexivity|]. split; [exact Hph|]. split; [exact Hgp|].
    split; [apply creation_head_phase; exact Hsum|].
    split; [constructor; [exact I | eapply loop_upload_phase; exact Hl]|].
    split; [exact Hcnt|]. split; [exact Hgc|]. cbn. lia.
  - exists tu, tg, (creation_head rid tok r0 line),
      (Printed (uploading_line rid) :: tl ++ summary_events rid cid).
    split; [reflexivity|]. split; [exact Hph|]. split; [exact Hgp|].
    split; [apply creation_head_phase; exact Hsum|].
    split.
    { constructor; [exact I|]. apply Forall_app.
      split; [eapply loop_upload_phase; exact Hl | apply summary_events_phase]. }
    split; [exact Hcnt|]. split; [exact Hgc|]. cbn. lia.
Qed.

(** X4.  The outside calls of a run come in a fixed order: the identity
    lookup, then the git subprocess, then the creation of the repository,
    then the uploads.  Each of the first three is made at most once, the
    subprocess is always [git rev-parse --short HEAD] and the repository is
    always asked to be public. *)
Theorem calls_in_order d env w :
  exists tu tg tc tup,
    fst (run d env w) = tu ++ tg ++ tc ++ tup
    /\ Forall identity_phase tu /\ Forall git_phase tg
    /\ Forall create_phase tc /\ Forall upload_phase tup
    /\ length (List.filter is_whoami tu) <= 1
    /\ length (List.filter is_subprocess tg) <= 1
    /\ length (List.filter is_create tc) <= 1.
Proof. apply (calls_in_order_form d env w), run_form_holds. Qed.

Lemma git_phase_uses_token tok t : Forall git_phase t -> Forall (uses_token tok) t.
Proof.
  intros H. eapply Forall_impl; [exact H|].
  intros [] He; cbn [git_phase uses_token] in *; try exact I; destruct He.
Qed.

Lemma loop_uses_token tok rid pfx files w h tl r :
  upload_files tok rid pfx files w h = (tl, r) -> Forall (uses_token tok) tl.
Proof.
  intros Hl.
  assert (H : emits (uses_token tok) (upload_files tok rid pfx files))
    by (apply emits_upload_files; intros; cbn; auto).
  specialize (H w h). rewrite Hl in H. exact H.
Qed.

Lemma token_used_form d env w p tok0 :
  run_form d env w p ->
  nonempty_value (getenv (load_dotenv d env) "HF_TOKEN") = Some tok0 ->
  Forall (uses_token tok0) (fst p).
Proof.
  intros Hf Htok0.
  assert (Hsummary : forall rid cid,
            Forall (uses_token tok0) (summary_events rid cid)).
  { intros rid cid. unfold summary_events.
    destruct cid as [[|c s]|]; repeat constructor. }
  run_form_cases Hf; cbn [fst];
    try (destruct Hid as (Htok & Hph & Huse & Hcnt);
         destruct (git_phase_count _ _ _ _ Hg) as [Hgp _];
         pose proof (git_phase_uses_token tok0 _ Hgp));
    try (assert (tok = tok0) as -> by congruence);
    repeat (apply Forall_app; split); try assumption;
    try (repeat constructor; fail).
  - constructor; [exact I|]. eapply loop_uses_token. exact Hl.
  - constructor; [exact I|]. apply Forall_app.
    split; [eapply loop_uses_token; exact Hl | apply Hsummary].
Qed.

(** X5.  Every call that carries a token, be it the identity lookup, the
    creation or an upload, carries the value of [HF_TOKEN]. *)
Theorem token_used_everywhere d env w tok :
  nonempty_value (getenv (load_dotenv d env) "HF_TOKEN") = Some tok ->
  Forall (uses_token tok) (fst (run d env w)).
Proof. apply (token_used_form d env w), run_form_holds. Qed.

Lemma token_used_everywhere_witness :
  Forall (uses_token "hf_secret")
    (fst (run ∅ Examples.env_token Examples.w_ok)).
Proof. apply token_used_everywhere. reflexivity. Defined.

(** ** The summary *)

Lemma identity_phase_no_summary t : Forall identity_phase t -> Forall no_summary t.
Proof.
  intros H. eapply Forall_impl; [exact H|].
  intros [] He; cbn in *; (exact He || reflexivity).
Qed.

Lemma git_phase_no_summary t : Forall git_phase t -> Forall no_summary t.
Proof.
  intros H. eapply Forall_impl; [exact H|].
  intros [] He; cbn in *; (exact He || reflexivity).
Qed.

Lemma creation_head_no_summary rid tok r0 line :
  String.prefix "Upload complete!" line = false ->
  Forall no_summary (creation_head rid tok r0 line).
Proof. intros H. repeat constructor. exact H. Qed.

Lemma loop_no_summary tok rid pfx files w h tl r :
  upload_files tok rid pfx files w h = (tl, r) -> Forall no_summary tl.
Proof.
  intros Hl. pose proof (upload_files_no_summary tok rid pfx files w h) as H.
  rewrite Hl in H. exact H.
Qed.

Lemma no_summary_not_exists t :
  Forall no_summary t -> ~ Exists (fun e => is_summary e = true) t.
Proof.
  intros Hall Hex. apply Exists_exists in Hex as (e & Hin & He).
  rewrite Forall_forall in Hall. specialize (Hall e Hin).
  unfold no_summary in Hall. congruence.
Qed.

Lemma summary_form d env w p :
  run_form d env w p ->
  match snd p with
  | Ok _ => Exists (fun e => is_summary e = true) (fst p)
  | Raise _ => Forall no_summary (fst p)
  end.
Proof.
  intros Hf. run_form_cases Hf; cbn [fst snd];
    try (destruct Hid as (_ & Hph & _ & _);
         destruct (git_phase_count _ _ _ _ Hg) as [Hgp _];
         pose proof (identity_phase_no_summary _ Hph);
         pose proof (git_phase_no_summary _ Hgp));
    try (pose proof (creation_head_no_summary rid tok r0 line Hsum)).
  - constructor.
  - repeat constructor. exact Hsum.
  - apply Forall_app. split; assumption.
  - repeat (apply Forall_app; split); try assumption.
    apply creation_head_no_summary. exact Hsum.
  - repeat (apply Forall_app; split); assumption.
  - repeat (apply Forall_app; split); try assumption.
    constructor; [reflexivity | eapply loop_no_summary; exact Hl].
  - apply Exists_app. right. apply Exists_app. right.
    apply Exists_app. right. constructor 2.
    apply Exists_app. right. unfold summary_events. constructor 1.
    reflexivity.
Qed.

(** X12.  The line "Upload complete!" is printed exactly in the runs that
    end without an exception. *)
Theorem summary_iff_completed d env w :
  Exists (fun e => is_summary e = true) (fst (run d env w))
  <-> snd (run d env w) = Ok tt.
Proof.
  pose proof (summary_form d env w _ (run_form_holds d env w)) as H.
  destruct (snd (run d env w)) as [[]|e].
  - split; [reflexivity | intros _; exact H].
  - split; [|discriminate]. intros Hex.
    destruct (no_summary_not_exists _ H Hex).
Qed.

(** ** The results directory *)

Lemma in_create_head tu tg rid tok r0 line rest a r :
  Forall identity_phase tu -> Forall git_phase tg -> Forall upload_phase rest ->
  In (CreateRepo a r) (tu ++ tg ++ creation_head rid tok r0 line ++ rest) ->
  r = r0.
Proof.
  intros Hu Hg Hr Hin.
  rewrite List.Forall_forall in Hu, Hg, Hr.
  apply in_app_or in Hin as [Hin | Hin]; [destruct (Hu _ Hin)|].
  apply in_app_or in Hin as [Hin | Hin]; [destruct (Hg _ Hin)|].
  apply in_app_or in Hin as [Hin | Hin]; [|destruct (Hr _ Hin)].
  destruct Hin as [Hin | [Hin | [Hin | []]]]; try discriminate Hin.
  injection Hin as _ <-. reflexivity.
Qed.

Lemma phases_no_upload tu tg rid tok r0 line :
  Forall identity_phase tu -> Forall git_phase tg ->
  Forall no_upload (tu ++ tg ++ creation_head rid tok r0 line).
Proof.
  intros Hu Hg. repeat (apply Forall_app; split).
  - eapply Forall_impl; [exact Hu|]. intros [] He; (reflexivity || destruct He).
  - eapply Forall_impl; [exact Hg|]. intros [] He; (reflexivity || destruct He).
  - repeat constructor.
Qed.

Lemma early_phases_no_upload tu tg :
  Forall identity_phase tu -> Forall git_phase tg -> Forall no_upload (tu ++ tg).
Proof.
  intros Hu Hg.
  pose proof (phases_no_upload tu tg "" "" (Ok tt) "" Hu Hg) as H.
  apply Forall_app in H as [H1 H]. apply Forall_app in H as [H2 _].
  apply Forall_app. split; assumption.
Qed.

Lemma missing_results_form d env w p :
  run_form d env w p ->
  (forall es,
      Pathlib.resolve (Dir (cwd_entries w)) results_dir <> Some (Dir es)) ->
  Forall no_upload (fst p)
  /\ (exists e, snd p = Raise e)
  /\ (forall a r,
        In (CreateRepo a r) (fst p) -> creation_passed r ->
        snd p = Raise results_error).
Proof.
  intros Hf Hmiss. run_form_cases Hf; cbn [fst snd];
    try (destruct (Hmiss es Hres));
    try (destruct Hid as (_ & Hph & _ & _);
         destruct (git_phase_count _ _ _ _ Hg) as [Hgp _]).
  - split; [constructor|]. split; [eauto|]. intros a r [].
  - split; [repeat constructor|]. split; [eauto|].
    intros a r [Hin | [Hin | [Hin | []]]]; discriminate Hin.
  - split; [apply early_phases_no_upload; assumption|].
    split; [eauto|]. intros a r Hin.
    rewrite List.Forall_forall in Hph, Hgp.
    apply in_app_or in Hin as [Hin | Hin];
      [destruct (Hph _ Hin) | destruct (Hgp _ Hin)].
  - split; [apply phases_no_upload; assumption|]. split; [eauto|].
    intros a r Hin Hpass. exfalso.
    rewrite <- (app_nil_r (creation_head _ _ _ _)) in Hin.
    rewrite (in_create_head _ _ _ _ _ _ _ _ _ Hph Hgp (List.Forall_nil _) Hin)
      in Hpass.
    exact (Hnot Hpass).
  - split; [apply phases_no_upload; assumption|]. split; [eauto|]. reflexivity.
Qed.

(** X6.  When [results] is missing or is not a directory, the run raises
    and no upload call is made; the check comes after the creation step, so
    when the creation went through the run ends with the [ValueError]
    "Results directory not found at results". *)
Theorem missing_results_dir d env w :
  (forall es,
      Pathlib.resolve (Dir (cwd_entries w)) results_dir <> Some (Dir es)) ->
  Forall no_upload (fst (run d env w))
  /\ (exists e, snd (run d env w) = Raise e)
  /\ (forall a r,
        In (CreateRepo a r) (fst (run d env w)) -> creation_passed r ->
        snd (run d env w) = Raise results_error).
Proof. apply (missing_results_form d env w), run_form_holds. Qed.

Lemma missing_results_dir_witness :
  snd (run ∅ Examples.env_full Examples.w_results_file) = Raise results_error.
Proof.
  refine (proj2 (proj2 (missing_results_dir ∅ Examples.env_full
                          Examples.w_results_file _))
            (mkCreate "bob/longbench-results" "dataset" false "hf_secret")
            (Ok tt) _ I).
  - intros es. discriminate.
  - right. right. left. reflexivity.
Defined.

Lemma no_file_form d env w p es0 :
  run_form d env w p ->
  Pathlib.resolve (Dir (cwd_entries w)) results_dir = Some (Dir es0) ->
  files_below (Pathlib.glob_rec_all results_dir (Dir es0)) = [] ->
  Forall no_upload (fst p)
  /\ (forall a r,
        In (CreateRepo a r) (fst p) -> creation_passed r -> snd p = Ok tt).
Proof.
  intros Hf Hdir Hempty. run_form_cases Hf; cbn [fst snd];
    try (destruct Hid as (_ & Hph & _ & _);
         destruct (git_phase_count _ _ _ _ Hg) as [Hgp _]);
    try (rewrite Hdir in Hres; injection Hres as <-; rewrite Hempty in Hl;
         cbn in Hl; injection Hl as <-).
  - split; [constructor|]. intros a r [].
  - split; [repeat constructor|].
    intros a r [Hin | [Hin | [Hin | []]]]; discriminate Hin.
  - split; [apply early_phases_no_upload; assumption|].
    intros a r Hin. rewrite List.Forall_forall in Hph, Hgp.
    apply in_app_or in Hin as [Hin | Hin];
      [destruct (Hph _ Hin) | destruct (Hgp _ Hin)].
  - split; [apply phases_no_upload; assumption|].
    intros a r Hin Hpass. exfalso.
    rewrite <- (app_nil_r (creation_head _ _ _ _)) in Hin.
    rewrite (in_create_head _ _ _ _ _ _ _ _ _ Hph Hgp (List.Forall_nil _) Hin)
      in Hpass.
    exact (Hnot Hpass).
  - destruct (Hnores es0 Hdir).
  - discriminate.
  - split; [|reflexivity].
    rewrite !app_assoc. apply Forall_app. split.
    + rewrite <- !app_assoc. apply phases_no_upload; assumption.
    + unfold summary_events. destruct cid as [[|c s]|]; repeat constructor.
Qed.

(** X7.  When [results] is a directory without any regular file below
    it (empty, or holding only directories and special files), so that
    [is_file()] holds of nothing the traversal finds, no upload call is
    made, and the run ends normally once the creation went through. *)
Theorem no_regular_file_no_upload d env w es :
  Pathlib.resolve (Dir (cwd_entries w)) results_dir = Some (Dir es) ->
  files_below (Pathlib.glob_rec_all results_dir (Dir es)) = [] ->
  Forall no_upload (fst (run d env w))
  /\ (forall a r,
        In (CreateRepo a r) (fst (run d env w)) -> creation_passed r ->
        snd (run d env w) = Ok tt).
Proof. apply (no_file_form d env w), run_form_holds. Qed.

Lemma no_regular_file_no_upload_witness :
  Forall no_upload (fst (run ∅ Examples.env_full Examples.w_no_files))
  /\ snd (run ∅ Examples.env_full Examples.w_no_files) = Ok tt.
Proof.
  destruct (no_regular_file_no_upload ∅ Examples.env_full Examples.w_no_files
              _ eq_refl eq_refl) as [Hno Hok].
  split; [exact Hno|].
  apply (Hok (mkCreate "bob/longbench-results" "dataset" false "hf_secret")
             (Ok tt)); [|exact I].
  right. right. left. reflexivity.
Defined.

(** ** What the recursive wildcard finds *)

Module GlobFacts.

Lemma descends_from_dir r q n : descends r q n -> exists es, r = Dir es.
Proof. destruct 1; eauto. Qed.

Lemma descends_snoc r q es name n :
  reaches_dir r q es -> In (name, n) es -> descends r (q ++ [name]) n.
Proof.
  intros [[-> ->] | Hd] Hin; [constructor; exact Hin|].
  remember (Dir es) as target eqn:Ht.
  induction Hd as [es0 nm m Hm | es0 nm es' q' m Hm Hd IH]; subst m.
  - cbn [app]. eapply descends_step; [exact Hm|]. constructor. exact Hin.
  - cbn [app]. eapply descends_step; [exact Hm|]. apply IH. reflexivity.
Qed.

Lemma descends_last r q' n :
  descends r q' n ->
  exists q name es, q' = q ++ [name] /\ reaches_dir r q es /\ In (name, n) es.
Proof.
  induction 1 as [es nm m Hm | es nm es' q' m Hm Hd IH].
  - exists [], nm, es. split; [reflexivity|]. split; [left; auto | exact Hm].
  - destruct IH as (q1 & name1 & es1 & -> & Hreach & Hin).
    exists (nm :: q1), name1, es1. split; [reflexivity|].
    split; [|exact Hin]. right.
    destruct Hreach as [[-> Heq] | Hd1].
    + injection Heq as ->. constructor. exact Hm.
    + eapply descends_step; eassumption.
Qed.

Lemma iterate_directories_spec r :
  forall root p es,
    In (p, es) (Pathlib.iterate_directories root r)
    <-> exists q, p = root ++ q /\ reaches_dir r q es.
Proof.
  induction r as [| |es0 IH| |m _] using node_tree_ind; intros root p es;
    cbn [Pathlib.iterate_directories].
  1,2,4,5: split; [intros [] | intros (q & _ & [[_ H] | H])];
      [discriminate H | inversion H].
  - rewrite List.Forall_forall in IH. split.
    + intros [Heq | Hin].
      * injection Heq as <- <-. exists []. rewrite app_nil_r.
        split; [reflexivity | left; auto].
      * apply List.in_flat_map in Hin as (e & He & Hin).
        apply (IH e He) in Hin as (q & -> & Hreach).
        exists (fst e :: q). rewrite <- app_assoc. split; [reflexivity|].
        right. destruct e as [nm m]. cbn [fst snd] in *.
        destruct Hreach as [[-> ->] | Hd].
        -- constructor. exact He.
        -- destruct (descends_from_dir _ _ _ Hd) as [es' ->].
           eapply descends_step; eassumption.
    + intros (q & -> & [[-> Heq] | Hd]).
      * injection Heq as ->. left. rewrite app_nil_r. reflexivity.
      * right. apply List.in_flat_map.
        inversion Hd as [es1 nm m Hm | es1 nm es' q' m Hm Hd']; subst.
        -- exists (nm, Dir es). split; [exact Hm|]. cbn [fst snd].
           left. reflexivity.
        -- exists (nm, Dir es'). split; [exact Hm|]. cbn [fst snd].
           apply (IH (nm, Dir es') Hm). exists q'.
           rewrite <- app_assoc. split; [reflexivity | right; exact Hd'].
Qed.

(** The wildcard yields exactly what lies below the starting directory,
    at any depth. *)
Lemma glob_rec_all_spec root r p n :
  In (p, n) (Pathlib.glob_rec_all root r)
  <-> exists q, p = root ++ q /\ descends r q n.
Proof.
  unfold Pathlib.glob_rec_all. rewrite List.in_flat_map. split.
  - intros ([pd es] & Hd & Hin).
    apply iterate_directories_spec in Hd as (q0 & -> & Hreach).
    unfold Pathlib.select_children in Hin. cbn [fst snd] in Hin.
    apply List.in_map_iff in Hin as ([nm m] & Heq & Hin).
    cbn [fst snd] in Heq. injection Heq as <- <-.
    exists (q0 ++ [nm]). rewrite app_assoc. split; [reflexivity|].
    eapply descends_snoc; eassumption.
  - intros (q & -> & Hd).
    destruct (descends_last _ _ _ Hd) as (q0 & nm & es & -> & Hreach & Hin).
    exists (root ++ q0, es). split.
    + apply iterate_directories_spec. eauto.
    + unfold Pathlib.select_children. cbn [fst snd].
      apply List.in_map_iff. exists (nm, n). cbn [fst snd].
      rewrite app_assoc. auto.
Qed.

Lemma files_below_spec g f :
  In f (files_below g)
  <-> exists p n,
        f = Pathlib.str p /\ In (p, n) g /\ Pathlib.is_file_node n = true.
Proof.
  unfold files_below. rewrite List.in_map_iff. split.
  - intros ([p n] & <- & Hin). apply List.filter_In in Hin as [Hin Hfile].
    cbn [fst snd] in *. eauto.
  - intros (p & n & -> & Hin & Hfile). exists (p, n).
    split; [reflexivity|]. apply List.filter_In. auto.
Qed.

Lemma descends_valid r q n :
  descends r q n -> wf_node r = true ->
  Forall (fun x => valid_name x = true) q.
Proof.
  induction 1 as [es nm m Hm | es nm es' q' m Hm Hd IH]; cbn [wf_node];
    intros Hwf; rewrite List.forallb_forall in Hwf;
    specialize (Hwf _ Hm); cbn [fst snd] in Hwf;
    apply andb_true_iff in Hwf as [Hv Hw].
  - repeat constructor. exact Hv.
  - constructor; [exact Hv | apply IH; exact Hw].
Qed.

End GlobFacts.

(** ** What is uploaded, where and with which message *)

Lemma Forall2_local_paths (R : string -> upload_args -> Prop) files calls :
  Forall2 (fun f a => path_or_fileobj a = f /\ R f a) files calls ->
  map path_or_fileobj calls = files.
Proof.
  induction 1 as [|f a files calls [Hf _] _ IH]; [reflexivity|].
  cbn [map]. rewrite Hf, IH. reflexivity.
Qed.

(** X8.  A run that ends without an exception made one upload call for
    every regular file the traversal of [results] found (every path it
    yields of which [is_file()] holds), in the order of the traversal, and
    none of these calls failed. *)
Theorem completed_run_uploads_every_file d env w :
  snd (run d env w) = Ok tt ->
  exists es,
    Pathlib.resolve (Dir (cwd_entries w)) results_dir = Some (Dir es)
    /\ map path_or_fileobj (upload_calls (fst (run d env w)))
       = files_below (Pathlib.glob_rec_all results_dir (Dir es))
    /\ Forall no_failed_upload (fst (run d env w)).
Proof.
  intros Hok.
  destruct (run_ok_inv d env w Hok)
    as (tok & rid & cid & es & h & Hres & Hl & Hcalls).
  exists es. split; [exact Hres|]. split.
  - rewrite Hcalls. eapply Forall2_local_paths.
    apply upload_files_ok_inv. exact Hl.
  - destruct (fail_last_run d env w) as [H | (t & a & x & _ & Hx & _)];
      [exact H | congruence].
Qed.

Lemma completed_run_uploads_every_file_witness :
  exists es,
    Pathlib.resolve (Dir (cwd_entries Examples.w_ok)) results_dir = Some (Dir es)
    /\ map path_or_fileobj
         (upload_calls (fst (run ∅ Examples.env_full Examples.w_ok)))
       = files_below (Pathlib.glob_rec_all results_dir (Dir es))
    /\ Forall no_failed_upload (fst (run ∅ Examples.env_full Examples.w_ok)).
Proof.
  assert (Hok : snd (run ∅ Examples.env_full Examples.w_ok) = Ok tt)
    by (vm_compute; reflexivity).
  exact (completed_run_uploads_every_file ∅ Examples.env_full Examples.w_ok Hok).
Defined.

(** X9.  In a run that ends without an exception, a local path is
    uploaded exactly when it names an entry for which [is_file()] holds, a
    regular file or a symbolic link that leads to one, found below
    [results] by going down through directories that are not symbolic
    links, at any depth.  So directories, special files, dangling links and
    links to directories are never uploaded, what lies behind a link to a
    directory is not uploaded by way of that link, and no other regular
    file or link to one is left out.  [results] itself may be a link to a
    directory. *)
Theorem uploaded_iff_regular_file_below d env w :
  snd (run d env w) = Ok tt ->
  exists es,
    Pathlib.resolve (Dir (cwd_entries w)) results_dir = Some (Dir es)
    /\ forall f,
         In f (map path_or_fileobj (upload_calls (fst (run d env w))))
         <-> exists q n,
               f = Pathlib.str (results_dir ++ q)
               /\ descends (Dir es) q n
               /\ Pathlib.is_file_node n = true.
Proof.
  intros Hok.
  destruct (run_ok_inv d env w Hok)
    as (tok & rid & cid & es & h & Hres & Hl & Hcalls).
  exists es. split; [exact Hres|]. intros f.
  rewrite Hcalls.
  rewrite (Forall2_local_paths _ _ _ (upload_files_ok_inv _ _ _ _ _ _ Hl)).
  rewrite GlobFacts.files_below_spec. split.
  - intros (p & n & -> & Hin & Hfile).
    apply GlobFacts.glob_rec_all_spec in Hin as (q & -> & Hd). eauto.
  - intros (q & n & -> & Hd & Hfile). exists (results_dir ++ q), n.
    split; [reflexivity|]. split; [|exact Hfile].
    apply GlobFacts.glob_rec_all_spec. eauto.
Qed.

(** With [results] a link to a directory that holds a file, a link to a
    file, a dangling link and a link to a directory: the link to the file
    is uploaded under its own name, and the file behind the link to the
    directory is not. *)
Lemma uploaded_iff_regular_file_below_witness :
  In "results/alias.txt"
     (map path_or_fileobj
        (upload_calls (fst (run ∅ Examples.env_full Examples.w_links))))
  /\ map path_or_fileobj
       (upload_calls (fst (run ∅ Examples.env_full Examples.w_links)))
     = ["results/a.txt"; "results/alias.txt"; "results/sub/b.txt"].
Proof.
  assert (Hok : snd (run ∅ Examples.env_full Examples.w_links) = Ok tt)
    by (vm_compute; reflexivity).
  destruct (uploaded_iff_regular_file_below ∅ Examples.env_full
              Examples.w_links Hok) as (es & Hres & Hiff).
  split; [|vm_compute; reflexivity].
  injection Hres as <-. apply Hiff.
  exists ["alias.txt"], (Symlink (Some File)).
  split; [reflexivity|]. split; [|reflexivity].
  constructor. right. left. reflexivity.
Defined.

Lemma no_upload_on_upload (Q : upload_args -> Prop) t :
  Forall no_upload t -> Forall (on_upload Q) t.
Proof.
  intros H. eapply Forall_impl; [exact H|].
  intros [] He; cbn in *; (exact I || discriminate He).
Qed.

(** The uploads of a run are those of its loop. *)
Lemma on_upload_form (Q : upload_args -> Prop) d env w p :
  run_form d env w p ->
  (forall tok tu tg cid rid es h tl r,
      get_current_git_commit w tu = (tg, Ok cid) ->
      Pathlib.resolve (Dir (cwd_entries w)) results_dir = Some (Dir es) ->
      upload_files tok rid (commit_prefix_of cid)
        (files_below (Pathlib.glob_rec_all results_dir (Dir es))) w h = (tl, r) ->
      Forall (on_upload Q) tl) ->
  Forall (on_upload Q) (fst p).
Proof.
  intros Hf Hloop. run_form_cases Hf; cbn [fst];
    try (destruct Hid as (_ & Hph & _ & _);
         destruct (git_phase_count _ _ _ _ Hg) as [Hgp _]).
  - constructor.
  - repeat constructor.
  - apply no_upload_on_upload, early_phases_no_upload; assumption.
  - apply no_upload_on_upload, phases_no_upload; assumption.
  - apply no_upload_on_upload, phases_no_upload; assumption.
  - rewrite !app_assoc. apply Forall_app. split.
    + rewrite <- !app_assoc.
      apply no_upload_on_upload, phases_no_upload; assumption.
    + constructor; [exact I|]. eapply Hloop; eassumption.
  - rewrite !app_assoc. apply Forall_app. split.
    + rewrite <- !app_assoc.
      apply no_upload_on_upload, phases_no_upload; assumption.
    + constructor; [exact I|]. apply Forall_app. split.
      * eapply Hloop; eassumption.
      * apply no_upload_on_upload. unfold summary_events.
        destruct cid as [[|c s]|]; repeat constructor.
Qed.

Lemma upload_files_relpath tok rid pfx files w :
  forall h,
    Forall
      (on_upload (fun a =>
         In (path_or_fileobj a) files
         /\ Posixpath.relpath (cwd w) (path_or_fileobj a) "."
            = Ok (path_in_repo a)))
      (fst (upload_files tok rid pfx files w h)).
Proof.
  induction files as [|f rest IH]; intros h; [constructor|].
  rewrite upload_files_cons.
  destruct (Posixpath.relpath (cwd w) f ".") as [rel|e] eqn:Hrel;
    [|constructor].
  cbv zeta.
  assert (Hrest : forall h',
    Forall
      (on_upload (fun a =>
         In (path_or_fileobj a) (f :: rest)
         /\ Posixpath.relpath (cwd w) (path_or_fileobj a) "."
            = Ok (path_in_repo a)))
      (fst (upload_files tok rid pfx rest w h'))).
  { intros h'. eapply Forall_impl; [apply IH|].
    intros [] He; cbn [on_upload] in *; try exact I.
    destruct He as [Hin He]. split; [right; exact Hin | exact He]. }
  destruct (hub_upload_file w _ _) as [[]|e]; cbn [fst].
  - constructor; [exact I|]. constructor; [|apply Hrest].
    cbn. split; [left; reflexivity | exact Hrel].
  - constructor; [exact I|]. constructor; [|constructor].
    cbn. split; [left; reflexivity | exact Hrel].
Qed.

(** X10.  When every name below [results] is an ordinary one (not empty,
    not [.] or [..], without a slash), every upload call of the run gives
    as remote path the very string it gives as local path: the path
    relative to the working directory, [results/] included. *)
Theorem remote_path_is_local_path d env w n :
  Pathlib.resolve (Dir (cwd_entries w)) results_dir = Some n ->
  wf_node n = true ->
  Forall (on_upload (fun a => path_in_repo a = path_or_fileobj a))
    (fst (run d env w)).
Proof.
  intros Hn Hwf. apply (on_upload_form _ d env w); [apply run_form_holds|].
  intros tok tu tg cid rid es h tl r _ Hres Hl.
  rewrite Hn in Hres. injection Hres as ->.
  pose proof (upload_files_relpath tok rid (commit_prefix_of cid)
                (files_below (Pathlib.glob_rec_all results_dir (Dir es))) w h)
    as Hrel.
  rewrite Hl in Hrel. cbn [fst] in Hrel.
  eapply Forall_impl; [exact Hrel|].
  intros [] He; cbn [on_upload] in *; try exact I.
  destruct He as [Hin He].
  apply GlobFacts.files_below_spec in Hin as (p & m & Hp & Hin & _).
  apply GlobFacts.glob_rec_all_spec in Hin as (q & -> & Hd).
  pose proof (GlobFacts.descends_valid _ _ _ Hd Hwf) as Hq.
  rewrite Hp in He. unfold Pathlib.str in Hp, He.
  rewrite (RelpathFacts.relpath_valid (cwd w) (results_dir ++ q)) in He.
  - injection He as He. rewrite <- He, Hp. reflexivity.
  - discriminate.
  - apply Forall_app. split; [repeat constructor | exact Hq].
Qed.

Lemma remote_path_is_local_path_witness :
  Forall (on_upload (fun a => path_in_repo a = path_or_fileobj a))
    (fst (run ∅ Examples.env_full Examples.w_ok)).
Proof.
  exact (remote_path_is_local_path ∅ Examples.env_full Examples.w_ok
           Examples.results_tree eq_refl eq_refl).
Defined.

Lemma commit_prefix_after out :
  commit_prefix_of (Some (Str.strip out)) = prefix_after out.
Proof.
  unfold prefix_after. destruct (Str.strip out); reflexivity.
Qed.

(** X11.  When git prints [out], every upload of the run carries the
    message "Update from github (commit id) <out stripped> - <path>"; when
    [out] is blank, so that nothing is left after stripping, the message is
    "update - <path>", as when the lookup fails. *)
Theorem commit_message_follows_git_output d env w out :
  (forall h, subprocess_run w h argv_git = Ok out) ->
  Forall (on_upload (fun a =>
            commit_message a = prefix_after out +:+ " - " +:+ path_in_repo a))
    (fst (run d env w)).
Proof.
  intros Hout. apply (on_upload_form _ d env w); [apply run_form_holds|].
  intros tok tu tg cid rid es h tl r Hg _ Hl.
  destruct (git_cases _ _ _ _ Hg)
    as [(out' & Hsub & _ & Hr) | [(e1 & l & Hsub & _) | (e1 & Hsub & _)]];
    rewrite Hout in Hsub; try discriminate Hsub.
  injection Hsub as <-. injection Hr as ->.
  pose proof (upload_files_loop_upload tok rid
                (commit_prefix_of (Some (Str.strip out)))
                (files_below (Pathlib.glob_rec_all results_dir (Dir es))) w h)
    as Hloop.
  rewrite Hl in Hloop. cbn [fst] in Hloop.
  eapply Forall_impl; [exact Hloop|].
  intros [] He; cbn [on_upload loop_upload] in *; try exact I.
  destruct He as (_ & _ & _ & He). rewrite He, commit_prefix_after.
  reflexivity.
Qed.

Lemma commit_message_follows_git_output_witness :
  Forall (on_upload (fun a =>
            commit_message a = "update" +:+ " - " +:+ path_in_repo a))
    (fst (run ∅ Examples.env_full Examples.w_blank_nbsp)).
Proof.
  exact (commit_message_follows_git_output ∅ Examples.env_full
           Examples.w_blank_nbsp (Examples.nbsp +:+ String Str.LF "")
           (fun _ => eq_refl)).
Defined.
